(** * internal/query/instance.go: tenant (instance) read side

    A shallow embedding of the instance queries of package [query]:
    the three statement preparations with their scanners
    ([prepareInstanceQuery], [prepareInstancesQuery],
    [prepareInstanceDomainQuery]), the three operations on [Queries]
    ([SearchInstances], [Instance], [InstanceByHost]) and
    [GetDefaultLanguage].

    The packages the file imports (squirrel, database/sql, x/text/language,
    the rest of package query) are collaborators: each is an interface
    (a type class) here, and the functions of instance.go are written
    against those interfaces exactly as the Go code is written against the
    packages. *)

From Stdlib Require Import String Ascii List Bool NArith ZArith.
From Stdlib Require Import DecimalString.
Import ListNotations.
Open Scope string_scope.
Open Scope list_scope.

(* ===================================================================== *)
(** ** Go errors and the error kinds of internal/errors *)
(* ===================================================================== *)

(** The kind of a zitadel error: the concrete error type that
    [errors.ThrowX] builds. *)
Inductive ErrorKind : Type :=
| InvalidArgument
| NotFound
| Internal.

(** A Go [error] value.  [sql_ErrNoRows] is the sentinel of database/sql,
    [errors_New] any other leaf error (driver failure, cancelled context),
    [fmt_Errorf_w] an error wrapping its cause, [CaosError] an error of
    internal/errors with its parent, id and message. *)
Inductive error : Type :=
| sql_ErrNoRows
| errors_New (text : string)
| fmt_Errorf_w (text : string) (cause : error)
| CaosError (kind : ErrorKind) (parent : error) (id message : string).

(** Modelled from the spec: internal/errors is not part of the sources; its
    three constructors build an error of the kind they name around the
    parent, keeping id and message (section 7: InvalidArgument, NotFound,
    Internal). *)
Definition ThrowInvalidArgument (parent : error) (id message : string) : error :=
  CaosError InvalidArgument parent id message.

Definition ThrowNotFound (parent : error) (id message : string) : error :=
  CaosError NotFound parent id message.

Definition ThrowInternal (parent : error) (id message : string) : error :=
  CaosError Internal parent id message.

(** [errs.Is(err, sql.ErrNoRows)]: the sentinel is looked for along the
    chain of wrapped causes. *)
Fixpoint errs_Is_ErrNoRows (err : error) : bool :=
  match err with
  | sql_ErrNoRows => true
  | errors_New _ => false
  | fmt_Errorf_w _ cause => errs_Is_ErrNoRows cause
  | CaosError _ parent _ _ => errs_Is_ErrNoRows parent
  end.

(** The kind of an error as a caller sees it ([errors.IsInternal] and the
    like assert on the outermost error type only). *)
Definition kindOf (err : error) : option ErrorKind :=
  match err with
  | CaosError kind _ _ _ => Some kind
  | _ => None
  end.

(** What a library call that returns [(value, error)] yields. *)
Inductive result (A : Type) : Type :=
| Ok (a : A)
| Err (err : error).
Arguments Ok {A} a.
Arguments Err {A} err.

(** A Go result pair [(nil, err)] whose error is of kind [k]. *)
Definition failsWith {A : Type} (k : ErrorKind) (r : option A * option error) : Prop :=
  fst r = None /\ exists err, snd r = Some err /\ kindOf err = Some k.

(* ===================================================================== *)
(** ** Values, strings *)
(* ===================================================================== *)

(** An [interface{}] bound as statement argument. *)
Inductive Value : Type :=
| VString (s : string)
| VUint (n : N)
| VStrings (ss : list string).

(** [strings.Split(s, sep)] for a one byte separator: the pieces of [s]
    between the occurrences of [sep]; never empty. *)
Fixpoint strings_Split (s : string) (sep : ascii) : list string :=
  match s with
  | EmptyString => [EmptyString]
  | String c rest =>
      if Ascii.eqb c sep then EmptyString :: strings_Split rest sep
      else match strings_Split rest sep with
           | [] => [String c EmptyString]
           | piece :: pieces => String c piece :: pieces
           end
  end.

Definition colon : ascii := ":"%char.

(** [strings.Split(host, ":")[0]]. *)
Definition stripPort (host : string) : string :=
  nth 0 (strings_Split host colon) EmptyString.

(** No byte of [s] is [c]. *)
Fixpoint lacks (c : ascii) (s : string) : bool :=
  match s with
  | EmptyString => true
  | String d rest => negb (Ascii.eqb d c) && lacks c rest
  end.

(* ===================================================================== *)
(** ** The data model *)
(* ===================================================================== *)

(** [time.Time] as an instant, [domain.Step] as its integer. *)
Definition time_Time : Type := Z.
Definition domain_Step : Type := Z.

Record table : Type := { table_name : string }.

Record Column : Type := { name : string; col_table : table }.

(** golang.org/x/text/language: tags, the undefined tag and [Make], which
    parses a string into a tag and never fails. *)
Class Language : Type := {
  language_Tag : Type;
  language_Und : language_Tag;
  language_Make : string -> language_Tag;
  Tag_String : language_Tag -> string
}.

(** The names of the projection table and of its columns
    (package projection). *)
Class Projection : Type := {
  InstanceProjectionTable : string;
  projection_InstanceColumnID : string;
  projection_InstanceColumnName : string;
  projection_InstanceColumnCreationDate : string;
  projection_InstanceColumnChangeDate : string;
  projection_InstanceColumnSequence : string;
  projection_InstanceColumnGlobalOrgID : string;
  projection_InstanceColumnProjectID : string;
  projection_InstanceColumnConsoleID : string;
  projection_InstanceColumnConsoleAppID : string;
  projection_InstanceColumnSetUpStarted : string;
  projection_InstanceColumnSetUpDone : string;
  projection_InstanceColumnDefaultLanguage : string
}.

(** [sq.Eq{column: value}] with its single entry. *)
Record sq_Eq : Type := { eq_column : string; eq_value : Value }.

Inductive sq_PlaceholderFormat : Type :=
| sq_Question
| sq_Dollar.

(** github.com/Masterminds/squirrel: the select builder and the calls that
    instance.go makes on it. *)
Class Squirrel : Type := {
  sq_SelectBuilder : Type;
  sq_Select : list string -> sq_SelectBuilder;
  sq_From : sq_SelectBuilder -> string -> sq_SelectBuilder;
  sq_LeftJoin : sq_SelectBuilder -> string -> sq_SelectBuilder;
  sq_PlaceholderFormat_ : sq_SelectBuilder -> sq_PlaceholderFormat -> sq_SelectBuilder;
  sq_Where : sq_SelectBuilder -> sq_Eq -> sq_SelectBuilder;
  sq_ToSql : sq_SelectBuilder -> result (string * list Value)
}.

(** The rest of package query that instance.go relies on: how tables and
    columns render, the join clause, the columns of the domain table, the
    count column, and the search request and search query types with their
    [toQuery]. *)
Class QueryPkg `{Squirrel} : Type := {
  table_identifier : table -> string;
  Column_identifier : Column -> string;
  join : Column -> Column -> string;
  InstanceDomainInstanceIDCol : Column;
  InstanceDomainDomainCol : Column;
  countColumn : Column;
  SearchRequest : Type;
  SearchRequest_toQuery : SearchRequest -> sq_SelectBuilder -> sq_SelectBuilder;
  SearchQuery : Type;
  SearchQuery_toQuery : SearchQuery -> sq_SelectBuilder -> sq_SelectBuilder
}.

(** [SearchResponse]: the total count of a collection query. *)
Record SearchResponse : Type := { Count : N }.

(** Modelled from the spec: package authz is not part of the sources; the
    instance attached to a request context carries the tenant id and the
    original request host (section 6), and [authz.Instance] exposes them
    with the project and console ids (section 4.5). *)
Record authz_instance : Type := {
  ctx_InstanceID : string;
  ctx_ProjectID : string;
  ctx_ConsoleClientID : string;
  ctx_ConsoleApplicationID : string;
  ctx_RequestedDomain : string
}.

(** Modelled from the spec: a request context; [ctx_err] is the
    cancellation or timeout it may carry (section 5). *)
Record context_Context : Type := {
  authz_GetInstance : authz_instance;
  ctx_err : option error
}.

(** The interface [authz.Instance]. *)
Class authz_Instance (T : Type) : Type := {
  InstanceID : T -> string;
  ProjectID : T -> string;
  ConsoleClientID : T -> string;
  ConsoleApplicationID : T -> string;
  RequestedDomain : T -> string
}.

#[global] Instance authz_instance_Instance : authz_Instance authz_instance := {|
  InstanceID := ctx_InstanceID;
  ProjectID := ctx_ProjectID;
  ConsoleClientID := ctx_ConsoleClientID;
  ConsoleApplicationID := ctx_ConsoleApplicationID;
  RequestedDomain := ctx_RequestedDomain
|}.

(** What [Scan] stores through the eleven destinations of a scanner. *)
Record InstanceColumns : Type := {
  c_ID : string;
  c_CreationDate : time_Time;
  c_ChangeDate : time_Time;
  c_Sequence : N;
  c_GlobalOrgID : string;
  c_ProjectID : string;
  c_ConsoleID : string;
  c_ConsoleAppID : string;
  c_SetupStarted : domain_Step;
  c_SetupDone : domain_Step;
  c_lang : string
}.

(** [*sql.Row]: the outcome its [Scan] will have. *)
Definition sql_Row : Type := result InstanceColumns.

(** [*sql.Rows]: a cursor.  [rows_pending] holds, for every position that
    [Next] advances to, the outcome of [Scan] there (the eleven columns and
    the count column); [rows_Err] is the iteration error, which the scanner
    never reads; [rows_Close] is what [Close] returns. *)
Record sql_Rows : Type := {
  rows_pending : list (result (InstanceColumns * N));
  rows_Err : option error;
  rows_Close : option error
}.

(** A statement sent to the store. *)
Inductive Exec : Type :=
| ExecQuery (stmt : string) (args : list Value)
| ExecQueryRow (stmt : string) (args : list Value).

(** [*sql.DB]: what the store answers to a statement.  The read tables are
    a snapshot: the answer depends on context, statement and arguments
    only. *)
Record sql_DB : Type := {
  db_Query : context_Context -> string -> list Value -> result sql_Rows;
  db_QueryRow : context_Context -> string -> list Value -> sql_Row
}.

Record Queries : Type := { client : sql_DB }.

(** Calls on the store are effects: a computation threads the journal of
    the statements sent so far. *)
Definition Journal : Type := list Exec.

Definition IO (A : Type) : Type := Journal -> A * Journal.

Definition ret {A : Type} (a : A) : IO A := fun j => (a, j).

Definition bind {A B : Type} (m : IO A) (k : A -> IO B) : IO B :=
  fun j => let (a, j') := m j in k a j'.

Notation "x <- m ;; k" := (bind m (fun x => k))
  (at level 61, m at next level, right associativity).

Definition QueryContext (db : sql_DB) (ctx : context_Context)
    (stmt : string) (args : list Value) : IO (result sql_Rows) :=
  fun j => (db_Query db ctx stmt args, j ++ [ExecQuery stmt args]).

Definition QueryRowContext (db : sql_DB) (ctx : context_Context)
    (stmt : string) (args : list Value) : IO sql_Row :=
  fun j => (db_QueryRow db ctx stmt args, j ++ [ExecQueryRow stmt args]).

(* ===================================================================== *)
(** ** instance.go *)
(* ===================================================================== *)

Section InstanceQueries.

Context `{Language} `{Projection} `{QueryPkg}.

(** The table and its columns (the [var] block). *)
Definition instanceTable : table :=
  {| table_name := InstanceProjectionTable |}.

Definition InstanceColumnID : Column :=
  {| name := projection_InstanceColumnID; col_table := instanceTable |}.

Definition InstanceColumnName : Column :=
  {| name := projection_InstanceColumnName; col_table := instanceTable |}.

Definition InstanceColumnCreationDate : Column :=
  {| name := projection_InstanceColumnCreationDate; col_table := instanceTable |}.

Definition InstanceColumnChangeDate : Column :=
  {| name := projection_InstanceColumnChangeDate; col_table := instanceTable |}.

Definition InstanceColumnSequence : Column :=
  {| name := projection_InstanceColumnSequence; col_table := instanceTable |}.

Definition InstanceColumnGlobalOrgID : Column :=
  {| name := projection_InstanceColumnGlobalOrgID; col_table := instanceTable |}.

Definition InstanceColumnProjectID : Column :=
  {| name := projection_InstanceColumnProjectID; col_table := instanceTable |}.

Definition InstanceColumnConsoleID : Column :=
  {| name := projection_InstanceColumnConsoleID; col_table := instanceTable |}.

Definition InstanceColumnConsoleAppID : Column :=
  {| name := projection_InstanceColumnConsoleAppID; col_table := instanceTable |}.

Definition InstanceColumnSetupStarted : Column :=
  {| name := projection_InstanceColumnSetUpStarted; col_table := instanceTable |}.

Definition InstanceColumnSetupDone : Column :=
  {| name := projection_InstanceColumnSetUpDone; col_table := instanceTable |}.

Definition InstanceColumnDefaultLanguage : Column :=
  {| name := projection_InstanceColumnDefaultLanguage; col_table := instanceTable |}.

Record Instance : Type := {
  ID : string;
  ChangeDate : time_Time;
  CreationDate : time_Time;
  Sequence : N;
  GlobalOrgID : string;
  IAMProjectID : string;
  ConsoleID : string;
  ConsoleAppID : string;
  DefaultLanguage : language_Tag;
  SetupStarted : domain_Step;
  SetupDone : domain_Step;
  Host : string
}.

Record Instances : Type := {
  Instances_SearchResponse : SearchResponse;
  Instances_Instances : list Instance
}.

(** [*Instance] implements [authz.Instance]. *)
#[global] Instance Instance_authz : authz_Instance Instance := {|
  InstanceID := ID;
  ProjectID := IAMProjectID;
  ConsoleClientID := ConsoleID;
  ConsoleApplicationID := ConsoleAppID;
  RequestedDomain := Host
|}.

Record InstanceSearchQueries : Type := {
  ISQ_SearchRequest : SearchRequest;
  ISQ_Queries : list SearchQuery
}.

(** [(q *InstanceSearchQueries) toQuery]: the request first, then every
    query in order. *)
Definition InstanceSearchQueries_toQuery (q : InstanceSearchQueries)
    (query : sq_SelectBuilder) : sq_SelectBuilder :=
  fold_left (fun query q => SearchQuery_toQuery q query)
            (ISQ_Queries q)
            (SearchRequest_toQuery (ISQ_SearchRequest q) query).

(** A fresh [Instance]: every field has its zero value, [Host] apart in
    [&Instance{Host: host}].  The zero value of [language.Tag] is the
    undefined tag. *)
Definition newInstance (host : string) : Instance :=
  {| ID := ""; ChangeDate := 0%Z; CreationDate := 0%Z; Sequence := 0%N;
     GlobalOrgID := ""; IAMProjectID := ""; ConsoleID := ""; ConsoleAppID := "";
     DefaultLanguage := language_Und;
     SetupStarted := 0%Z; SetupDone := 0%Z;
     Host := host |}.

(** What a successful [Scan] writes through the ten destinations
    [&instance.ID], ..., [&instance.SetupDone]; the eleventh goes to the
    local [lang].  [DefaultLanguage] and [Host] are no destinations. *)
Definition scanInto (instance : Instance) (c : InstanceColumns) : Instance :=
  {| ID := c_ID c;
     ChangeDate := c_ChangeDate c;
     CreationDate := c_CreationDate c;
     Sequence := c_Sequence c;
     GlobalOrgID := c_GlobalOrgID c;
     IAMProjectID := c_ProjectID c;
     ConsoleID := c_ConsoleID c;
     ConsoleAppID := c_ConsoleAppID c;
     DefaultLanguage := DefaultLanguage instance;
     SetupStarted := c_SetupStarted c;
     SetupDone := c_SetupDone c;
     Host := Host instance |}.

(** [instance.DefaultLanguage = tag]. *)
Definition setDefaultLanguage (instance : Instance) (tag : language_Tag) : Instance :=
  {| ID := ID instance;
     ChangeDate := ChangeDate instance;
     CreationDate := CreationDate instance;
     Sequence := Sequence instance;
     GlobalOrgID := GlobalOrgID instance;
     IAMProjectID := IAMProjectID instance;
     ConsoleID := ConsoleID instance;
     ConsoleAppID := ConsoleAppID instance;
     DefaultLanguage := tag;
     SetupStarted := SetupStarted instance;
     SetupDone := SetupDone instance;
     Host := Host instance |}.

(** The eleven selected columns, in the order of the three statements. *)
Definition instanceColumns : list string :=
  [ Column_identifier InstanceColumnID;
    Column_identifier InstanceColumnCreationDate;
    Column_identifier InstanceColumnChangeDate;
    Column_identifier InstanceColumnSequence;
    Column_identifier InstanceColumnGlobalOrgID;
    Column_identifier InstanceColumnProjectID;
    Column_identifier InstanceColumnConsoleID;
    Column_identifier InstanceColumnConsoleAppID;
    Column_identifier InstanceColumnSetupStarted;
    Column_identifier InstanceColumnSetupDone;
    Column_identifier InstanceColumnDefaultLanguage ].

(** The scanner of [prepareInstanceQuery] (lines 202-226). *)
Definition scanInstance (host : string) (row : sql_Row)
    : option Instance * option error :=
  let instance := newInstance host in
  match row with
  | Err err =>
      if errs_Is_ErrNoRows err
      then (None, Some (ThrowNotFound err "QUERY-n0wng" "Errors.IAM.NotFound"))
      else (None, Some (ThrowInternal err "QUERY-d9nw" "Errors.Internal"))
  | Ok c =>
      let instance := scanInto instance c in
      let lang := c_lang c in
      let instance := setDefaultLanguage instance (language_Make lang) in
      (Some instance, None)
  end.

Definition prepareInstanceQuery (host : string)
    : sq_SelectBuilder * (sql_Row -> option Instance * option error) :=
  (sq_PlaceholderFormat_
     (sq_From (sq_Select instanceColumns) (table_identifier instanceTable))
     sq_Dollar,
   scanInstance host).

(** The loop of the scanner of [prepareInstancesQuery] (lines 247-280):
    [pending] is what the cursor still holds, [instances] and [count] are
    the locals of the same name, [close] is what [rows.Close()] returns. *)
Fixpoint scanInstancesLoop (pending : list (result (InstanceColumns * N)))
    (close : option error) (instances : list Instance) (count : N)
    : option Instances * option error :=
  match pending with
  | Err err :: _ => (None, Some err)
  | Ok (c, n) :: pending' =>
      let instance := scanInto (newInstance "") c in
      scanInstancesLoop pending' close (instances ++ [instance]) n
  | [] =>
      match close with
      | Some err =>
          (None, Some (ThrowInternal err "QUERY-8nlWW" "Errors.Query.CloseRows"))
      | None =>
          (Some {| Instances_Instances := instances;
                   Instances_SearchResponse := {| Count := count |} |},
           None)
      end
  end.

(** The scanner of [prepareInstancesQuery] (lines 244-281). *)
Definition scanInstances (rows : sql_Rows) : option Instances * option error :=
  scanInstancesLoop (rows_pending rows) (rows_Close rows) [] 0%N.

Definition prepareInstancesQuery
    : sq_SelectBuilder * (sql_Rows -> option Instances * option error) :=
  (sq_PlaceholderFormat_
     (sq_From (sq_Select (instanceColumns ++ [Column_identifier countColumn]))
              (table_identifier instanceTable))
     sq_Dollar,
   scanInstances).

(** The scanner of [prepareInstanceDomainQuery] (lines 301-325). *)
Definition scanInstanceDomain (host : string) (row : sql_Row)
    : option Instance * option error :=
  let instance := newInstance host in
  match row with
  | Err err =>
      if errs_Is_ErrNoRows err
      then (None, Some (ThrowNotFound err "QUERY-n0wng" "Errors.IAM.NotFound"))
      else (None, Some (ThrowInternal err "QUERY-d9nw" "Errors.Internal"))
  | Ok c =>
      let instance := scanInto instance c in
      let lang := c_lang c in
      let instance := setDefaultLanguage instance (language_Make lang) in
      (Some instance, None)
  end.

Definition prepareInstanceDomainQuery (host : string)
    : sq_SelectBuilder * (sql_Row -> option Instance * option error) :=
  (sq_PlaceholderFormat_
     (sq_LeftJoin
        (sq_From (sq_Select instanceColumns) (table_identifier instanceTable))
        (join InstanceDomainInstanceIDCol InstanceColumnID))
     sq_Dollar,
   scanInstanceDomain host).

(** [(q *Queries) SearchInstances] (lines 135-151). *)
Definition SearchInstances (q : Queries) (ctx : context_Context)
    (queries : InstanceSearchQueries) : IO (option Instances * option error) :=
  let '(query, scan) := prepareInstancesQuery in
  match sq_ToSql (InstanceSearchQueries_toQuery queries query) with
  | Err err =>
      ret (None, Some (ThrowInvalidArgument err "QUERY-M9fow" "Errors.Query.SQLStatement"))
  | Ok (stmt, args) =>
      rows <- QueryContext (client q) ctx stmt args ;;
      match rows with
      | Err err => ret (None, Some (ThrowInternal err "QUERY-3j98f" "Errors.Internal"))
      | Ok rows =>
          match scan rows with
          | (_, Some err) => ret (None, Some err)
          | (instances, None) => ret (instances, None)
          end
      end
  end.

(** [(q *Queries) Instance] (lines 153-164). *)
Definition Queries_Instance (q : Queries) (ctx : context_Context)
    : IO (option Instance * option error) :=
  let '(stmt, scan) :=
    prepareInstanceQuery (RequestedDomain (authz_GetInstance ctx)) in
  match sq_ToSql (sq_Where stmt
                    {| eq_column := Column_identifier InstanceColumnID;
                       eq_value := VString (InstanceID (authz_GetInstance ctx)) |}) with
  | Err err =>
      ret (None, Some (ThrowInternal err "QUERY-d9ngs" "Errors.Query.SQLStatement"))
  | Ok (query, args) =>
      row <- QueryRowContext (client q) ctx query args ;;
      ret (scan row)
  end.

(** A value of the interface type [authz.Instance], as [InstanceByHost]
    returns one: the nil interface, or an interface that holds a
    [*Instance], which may itself be a nil pointer. *)
Inductive authz_Instance_value : Type :=
| authz_nil
| authz_holds (instance : option Instance).

(** The [*Instance] that an interface value holds, if any. *)
Definition held (v : authz_Instance_value) : option Instance :=
  match v with
  | authz_nil => None
  | authz_holds instance => instance
  end.

(** [(q *Queries) InstanceByHost] (lines 166-177).  The function returns
    [(authz.Instance, error)]: line 172 returns the nil interface, and
    [return scan(row)] of line 176 converts the [*Instance] of the scanner,
    nil or not, into an interface that holds it. *)
Definition Queries_InstanceByHost (q : Queries) (ctx : context_Context)
    (host : string) : IO (authz_Instance_value * option error) :=
  let '(stmt, scan) := prepareInstanceDomainQuery host in
  match sq_ToSql (sq_Where stmt
                    {| eq_column := Column_identifier InstanceDomainDomainCol;
                       eq_value := VString (stripPort host) |}) with
  | Err err =>
      ret (authz_nil,
           Some (ThrowInternal err "QUERY-SAfg2" "Errors.Query.SQLStatement"))
  | Ok (query, args) =>
      row <- QueryRowContext (client q) ctx query args ;;
      let '(instance, err) := scan row in
      ret (authz_holds instance, err)
  end.

(** [InstanceByHost] as a caller reads its result after the type assertion
    to [*Instance]: the pointer that the returned interface holds (nil for
    the nil interface), with the error. *)
Definition InstanceByHost (q : Queries) (ctx : context_Context) (host : string)
    : IO (option Instance * option error) :=
  r <- Queries_InstanceByHost q ctx host ;;
  ret (held (fst r), snd r).

(** [(q *Queries) GetDefaultLanguage] (lines 179-185).  The function has no
    error result; [None] stands for the panic of dereferencing a nil
    [iam]. *)
Definition GetDefaultLanguage (q : Queries) (ctx : context_Context)
    : IO (option language_Tag) :=
  r <- Queries_Instance q ctx ;;
  match r with
  | (_, Some _) => ret (Some language_Und)
  | (Some iam, None) => ret (Some (DefaultLanguage iam))
  | (None, None) => ret None
  end.

(** The instance that the multi-row scanner builds from a decoded row. *)
Definition decoded (row : InstanceColumns * N) : Instance :=
  scanInto (newInstance "") (fst row).

(** The builders that the three operations serialize. *)
Definition SearchInstances_statement (queries : InstanceSearchQueries)
    : sq_SelectBuilder :=
  InstanceSearchQueries_toQuery queries (fst prepareInstancesQuery).

Definition Instance_statement (ctx : context_Context) : sq_SelectBuilder :=
  sq_Where (fst (prepareInstanceQuery (RequestedDomain (authz_GetInstance ctx))))
           {| eq_column := Column_identifier InstanceColumnID;
              eq_value := VString (InstanceID (authz_GetInstance ctx)) |}.

Definition InstanceByHost_statement (host : string) : sq_SelectBuilder :=
  sq_Where (fst (prepareInstanceDomainQuery host))
           {| eq_column := Column_identifier InstanceDomainDomainCol;
              eq_value := VString (stripPort host) |}.

(** Two instances agree on every field but [Host]. *)
Definition sameButHost (a b : Instance) : Prop :=
  ID a = ID b /\
  ChangeDate a = ChangeDate b /\
  CreationDate a = CreationDate b /\
  Sequence a = Sequence b /\
  GlobalOrgID a = GlobalOrgID b /\
  IAMProjectID a = IAMProjectID b /\
  ConsoleID a = ConsoleID b /\
  ConsoleAppID a = ConsoleAppID b /\
  DefaultLanguage a = DefaultLanguage b /\
  SetupStarted a = SetupStarted b /\
  SetupDone a = SetupDone b.

End InstanceQueries.

(* ===================================================================== *)
(** ** Concrete collaborators

    One implementation of every interface, to run the operations on
    concrete requests. *)
(* ===================================================================== *)

Module Fixture.

Local Open Scope string_scope.

(** Tags as their canonical strings. *)
Definition tags : Language :=
  {| language_Tag := string;
     language_Und := "und";
     language_Make := fun s => if String.eqb s "" then "und" else s;
     Tag_String := fun t => t |}.

Definition names : Projection :=
  {| InstanceProjectionTable := "projections.instances";
     projection_InstanceColumnID := "id";
     projection_InstanceColumnName := "name";
     projection_InstanceColumnCreationDate := "creation_date";
     projection_InstanceColumnChangeDate := "change_date";
     projection_InstanceColumnSequence := "sequence";
     projection_InstanceColumnGlobalOrgID := "global_org_id";
     projection_InstanceColumnProjectID := "iam_project_id";
     projection_InstanceColumnConsoleID := "console_client_id";
     projection_InstanceColumnConsoleAppID := "console_app_id";
     projection_InstanceColumnSetUpStarted := "setup_started";
     projection_InstanceColumnSetUpDone := "setup_done";
     projection_InstanceColumnDefaultLanguage := "default_language" |}.

Record Builder : Type := {
  b_columns : list string;
  b_from : string;
  b_joins : list string;
  b_where : list sq_Eq;
  b_format : sq_PlaceholderFormat
}.

Definition placeholder (f : sq_PlaceholderFormat) (i : nat) : string :=
  match f with
  | sq_Question => "?"
  | sq_Dollar => "$" ++ NilZero.string_of_uint (Nat.to_uint i)
  end.

Fixpoint conditions (f : sq_PlaceholderFormat) (i : nat) (ws : list sq_Eq)
    : list string :=
  match ws with
  | [] => []
  | w :: ws' => (eq_column w ++ " = " ++ placeholder f i) :: conditions f (S i) ws'
  end.

Definition render (b : Builder) : string :=
  "SELECT " ++ String.concat ", " (b_columns b)
  ++ " FROM " ++ b_from b
  ++ String.concat "" (map (fun j => " LEFT JOIN " ++ j) (b_joins b))
  ++ match b_where b with
     | [] => ""
     | ws => " WHERE " ++ String.concat " AND " (conditions (b_format b) 1 ws)
     end.

(** A serializer that renders the statement, and refuses a statement
    without result column. *)
Definition rendering : Squirrel :=
  {| sq_SelectBuilder := Builder;
     sq_Select := fun cols =>
       {| b_columns := cols; b_from := ""; b_joins := []; b_where := [];
          b_format := sq_Question |};
     sq_From := fun b t =>
       {| b_columns := b_columns b; b_from := t; b_joins := b_joins b;
          b_where := b_where b; b_format := b_format b |};
     sq_LeftJoin := fun b j =>
       {| b_columns := b_columns b; b_from := b_from b; b_joins := (b_joins b ++ [j])%list;
          b_where := b_where b; b_format := b_format b |};
     sq_PlaceholderFormat_ := fun b f =>
       {| b_columns := b_columns b; b_from := b_from b; b_joins := b_joins b;
          b_where := b_where b; b_format := f |};
     sq_Where := fun b w =>
       {| b_columns := b_columns b; b_from := b_from b; b_joins := b_joins b;
          b_where := (b_where b ++ [w])%list; b_format := b_format b |};
     sq_ToSql := fun b =>
       match b_columns b with
       | [] => Err (errors_New "select statements must have at least one result column")
       | _ => Ok (render b, map eq_value (b_where b))
       end |}.

(** A serializer that fails on every statement. *)
Definition failing : Squirrel :=
  {| sq_SelectBuilder := Builder;
     sq_Select := @sq_Select rendering;
     sq_From := @sq_From rendering;
     sq_LeftJoin := @sq_LeftJoin rendering;
     sq_PlaceholderFormat_ := @sq_PlaceholderFormat_ rendering;
     sq_Where := @sq_Where rendering;
     sq_ToSql := fun _ => Err (errors_New "malformed statement") |}.

Definition identifier (c : Column) : string :=
  match table_name (col_table c) with
  | EmptyString => name c
  | t => t ++ "." ++ name c
  end.

Definition domainTable : table := {| table_name := "projections.instance_domains" |}.

(** The rest of package query over a serializer: a search query is an equality, a search request adds nothing. *)
Definition package (S : Squirrel) : @QueryPkg S :=
  {| table_identifier := table_name;
     Column_identifier := identifier;
     join := fun a b =>
       table_name (col_table a) ++ " ON " ++ identifier a ++ " = " ++ identifier b;
     InstanceDomainInstanceIDCol := {| name := "instance_id"; col_table := domainTable |};
     InstanceDomainDomainCol := {| name := "domain"; col_table := domainTable |};
     countColumn := {| name := "COUNT(*) OVER ()"; col_table := {| table_name := "" |} |};
     SearchRequest := unit;
     SearchRequest_toQuery := fun _ b => b;
     SearchQuery := sq_Eq;
     SearchQuery_toQuery := fun w b => sq_Where b w |}.

Definition zitadel : InstanceColumns :=
  {| c_ID := "inst-1"; c_CreationDate := 1650000000%Z; c_ChangeDate := 1650000600%Z;
     c_Sequence := 42%N; c_GlobalOrgID := "org-1"; c_ProjectID := "proj-1";
     c_ConsoleID := "console-1"; c_ConsoleAppID := "app-1";
     c_SetupStarted := 1%Z; c_SetupDone := 1%Z; c_lang := "en" |}.

Definition acme : InstanceColumns :=
  {| c_ID := "inst-2"; c_CreationDate := 1650001000%Z; c_ChangeDate := 1650001600%Z;
     c_Sequence := 7%N; c_GlobalOrgID := "org-2"; c_ProjectID := "proj-2";
     c_ConsoleID := "console-2"; c_ConsoleAppID := "app-2";
     c_SetupStarted := 1%Z; c_SetupDone := 0%Z; c_lang := "" |}.

(** A store with two tenants: [zitadel] is bound to tenant.example.com and
    has id inst-1, [acme] has id inst-2 and no domain. *)
Definition store : sql_DB :=
  {| db_Query := fun _ _ _ =>
       Ok {| rows_pending := [Ok (zitadel, 2%N); Ok (acme, 2%N)];
             rows_Err := None; rows_Close := None |};
     db_QueryRow := fun _ _ args =>
       match args with
       | [VString "tenant.example.com"] => Ok zitadel
       | [VString "inst-1"] => Ok zitadel
       | [VString "inst-2"] => Ok acme
       | _ => Err sql_ErrNoRows
       end |}.

Definition queries : Queries := {| client := store |}.

Definition request (id host : string) : context_Context :=
  {| authz_GetInstance :=
       {| ctx_InstanceID := id; ctx_ProjectID := ""; ctx_ConsoleClientID := "";
          ctx_ConsoleApplicationID := ""; ctx_RequestedDomain := host |};
     ctx_err := None |}.

Definition portRequest : context_Context :=
  request "inst-1" "tenant.example.com:8443".

Definition everything : @InstanceSearchQueries rendering (package rendering) :=
  {| ISQ_SearchRequest := tt : @SearchRequest rendering (package rendering);
     ISQ_Queries := [] |}.

Definition everythingFailing : @InstanceSearchQueries failing (package failing) :=
  {| ISQ_SearchRequest := tt : @SearchRequest failing (package failing);
     ISQ_Queries := [] |}.

(** A cursor whose second row does not decode. *)
Definition brokenRows : sql_Rows :=
  {| rows_pending := [Ok (zitadel, 2%N);
                      Err (errors_New "sql: Scan error on column index 3");
                      Ok (acme, 2%N)];
     rows_Err := None;
     rows_Close := None |}.

(** A cursor over no row that does not close. *)
Definition emptyUnclosable : sql_Rows :=
  {| rows_pending := []; rows_Err := None;
     rows_Close := Some (errors_New "driver: bad connection") |}.

(** A cursor over two rows that does not close. *)
Definition unclosable : sql_Rows :=
  {| rows_pending := [Ok (zitadel, 2%N); Ok (acme, 2%N)]; rows_Err := None;
     rows_Close := Some (errors_New "driver: bad connection") |}.

Definition emptyRows : sql_Rows :=
  {| rows_pending := []; rows_Err := None; rows_Close := None |}.

End Fixture.

(* ===================================================================== *)
(** ** instance.go: the id list query, and what a scan stores *)
(* ===================================================================== *)

(** [NewListQuery] of package query, with its comparison [ListIn].  The
    slots of the [[]interface{}] it receives are [option Value]: [None] is
    the nil interface. *)
Class ListQueries `{QueryPkg} : Type := {
  ListComparison : Type;
  ListIn : ListComparison;
  NewListQuery :
    Column -> list (option Value) -> ListComparison ->
    option SearchQuery * option error
}.

(** [make([]interface{}, n)]: [n] nil interfaces. *)
Definition make_interfaces (n : nat) : list (option Value) := repeat None n.

(** [list[i] = x]; [None] is the panic of an index out of range. *)
Fixpoint slice_set {A : Type} (list : list A) (i : nat) (x : A)
    : option (List.list A) :=
  match list, i with
  | [], _ => None
  | _ :: tail, O => Some (x :: tail)
  | head :: tail, S i' =>
      match slice_set tail i' x with
      | Some tail' => Some (head :: tail')
      | None => None
      end
  end.

(** [for i, value := range ids { list[i] = value }], from index [i] on. *)
Fixpoint fillIDs (ids : list string) (i : nat) (list : list (option Value))
    : option (List.list (option Value)) :=
  match ids with
  | [] => Some list
  | value :: ids' =>
      match slice_set list i (Some (VString value)) with
      | Some list' => fillIDs ids' (S i) list'
      | None => None
      end
  end.

Section IDList.

Context `{Language} `{Projection} `{ListQueries}.

(** [NewInstanceIDsListSearchQuery] (lines 119-125); [None] is a panic. *)
Definition NewInstanceIDsListSearchQuery (ids : list string)
    : option (option SearchQuery * option error) :=
  match fillIDs ids 0 (make_interfaces (length ids)) with
  | Some list => Some (NewListQuery InstanceColumnID list ListIn)
  | None => None
  end.

End IDList.

(** Every field of [instance] that a scan stores holds the value of its
    column of [c], and the default language is made of the language
    column. *)
Definition storedAs {L : Language} (instance : Instance) (c : InstanceColumns)
    : Prop :=
  ID instance = c_ID c /\
  CreationDate instance = c_CreationDate c /\
  ChangeDate instance = c_ChangeDate c /\
  Sequence instance = c_Sequence c /\
  GlobalOrgID instance = c_GlobalOrgID c /\
  IAMProjectID instance = c_ProjectID c /\
  ConsoleID instance = c_ConsoleID c /\
  ConsoleAppID instance = c_ConsoleAppID c /\
  SetupStarted instance = c_SetupStarted c /\
  SetupDone instance = c_SetupDone c /\
  DefaultLanguage instance = language_Make (c_lang c).

(** What squirrel guarantees of a plain statement: a select of at least one
    column from a table, with any left joins, dollar placeholders and one
    equality on a string value, serializes. *)
Definition SerializesPlainSelects {S : Squirrel} : Prop :=
  forall (columns : list string) (from : string) (joins : list string)
         (column value : string),
    columns <> [] ->
    exists stmt args,
      sq_ToSql
        (sq_Where
           (sq_PlaceholderFormat_
              (fold_left sq_LeftJoin joins (sq_From (sq_Select columns) from))
              sq_Dollar)
           {| eq_column := column; eq_value := VString value |})
      = Ok (stmt, args).

Module Scenario.

Local Open Scope string_scope.

(** Package query over the rendering serializer, with search queries that
    are free to do to the builder what they like. *)
Definition openPackage : @QueryPkg Fixture.rendering :=
  @Build_QueryPkg Fixture.rendering
    table_name
    Fixture.identifier
    (fun a b =>
       table_name (col_table a) ++ " ON " ++ Fixture.identifier a
       ++ " = " ++ Fixture.identifier b)
    {| name := "instance_id"; col_table := Fixture.domainTable |}
    {| name := "domain"; col_table := Fixture.domainTable |}
    {| name := "COUNT(*) OVER ()"; col_table := {| table_name := "" |} |}
    unit
    (fun _ b => b)
    (Fixture.Builder -> Fixture.Builder)
    (fun query b => query b).

(** [SelectBuilder.RemoveColumns]. *)
Definition removeColumns (b : Fixture.Builder) : Fixture.Builder :=
  {| Fixture.b_columns := []; Fixture.b_from := Fixture.b_from b;
     Fixture.b_joins := Fixture.b_joins b; Fixture.b_where := Fixture.b_where b;
     Fixture.b_format := Fixture.b_format b |}.

(** A search whose query leaves the statement without result column. *)
Definition columnless : @InstanceSearchQueries Fixture.rendering openPackage :=
  {| ISQ_SearchRequest := tt : @SearchRequest Fixture.rendering openPackage;
     ISQ_Queries := [removeColumns] |}.

(** A store whose collection query yields a cursor with a row that does
    not decode. *)
Definition brokenStore : sql_DB :=
  {| db_Query := fun _ _ _ => Ok Fixture.brokenRows;
     db_QueryRow := fun _ _ _ => Err (errors_New "driver: bad connection") |}.

Definition brokenQueries : Queries := {| client := brokenStore |}.

End Scenario.

(* ===================================================================== *)
(** ** Facts about the helpers *)
(* ===================================================================== *)

Lemma strings_Split_nonempty (s : string) (sep : ascii) :
  strings_Split s sep <> [].
Proof.
  destruct s as [|c rest]; simpl; [discriminate|].
  destruct (Ascii.eqb c sep); [discriminate|].
  destruct (strings_Split rest sep); discriminate.
Qed.

Lemma strings_Split_before (sep : ascii) (base rest : string) :
  lacks sep base = true ->
  strings_Split (base ++ String sep rest) sep = base :: strings_Split rest sep.
Proof.
  induction base as [|c base IH]; simpl; intros Hl.
  - now rewrite Ascii.eqb_refl.
  - apply andb_true_iff in Hl as [Hc Hb].
    apply negb_true_iff in Hc. rewrite Hc, (IH Hb). reflexivity.
Qed.

Lemma strings_Split_whole (sep : ascii) (s : string) :
  lacks sep s = true -> strings_Split s sep = [s].
Proof.
  induction s as [|c s IH]; simpl; intros Hl; [reflexivity|].
  apply andb_true_iff in Hl as [Hc Hs].
  apply negb_true_iff in Hc. rewrite Hc, (IH Hs). reflexivity.
Qed.

Lemma stripPort_host_port (base port : string) :
  lacks colon base = true -> stripPort (base ++ ":" ++ port) = base.
Proof.
  intros Hl. unfold stripPort. simpl.
  change (base ++ String ":" port)%string with (base ++ String colon port)%string.
  now rewrite strings_Split_before.
Qed.

Lemma stripPort_plain (host : string) :
  lacks colon host = true -> stripPort host = host.
Proof.
  intros Hl. unfold stripPort. now rewrite strings_Split_whole.
Qed.

Lemma last_default_irrelevant {A : Type} (l : list A) :
  forall x d d' : A, last (x :: l) d = last (x :: l) d'.
Proof.
  induction l as [|y l IH]; intros x d d'; [reflexivity|].
  change (last (y :: l) d = last (y :: l) d'). apply IH.
Qed.

Lemma last_cons_default {A : Type} (l : list A) (x d : A) :
  last l x = last (x :: l) d.
Proof.
  destruct l as [|y l]; [reflexivity|].
  change (last (y :: l) x = last (y :: l) d). apply last_default_irrelevant.
Qed.

Lemma failsWith_Throw {A : Type} (k : ErrorKind) (parent : error) (id message : string) :
  @failsWith A k (None, Some (CaosError k parent id message)).
Proof. split; [reflexivity|]. eexists; split; reflexivity. Qed.

Section Unfoldings.

Context `{Language} `{Projection} `{QueryPkg}.

(** The operations, by the outcome of serializing their statement. *)
Lemma SearchInstances_run (q : Queries) (ctx : context_Context)
    (queries : InstanceSearchQueries) (j : Journal) :
  SearchInstances q ctx queries j =
  match sq_ToSql (SearchInstances_statement queries) with
  | Err err =>
      ((None, Some (ThrowInvalidArgument err "QUERY-M9fow" "Errors.Query.SQLStatement")), j)
  | Ok (stmt, args) =>
      (match db_Query (client q) ctx stmt args with
       | Err err => (None, Some (ThrowInternal err "QUERY-3j98f" "Errors.Internal"))
       | Ok rows =>
           match scanInstances rows with
           | (_, Some err) => (None, Some err)
           | (instances, None) => (instances, None)
           end
       end, j ++ [ExecQuery stmt args])
  end.
Proof.
  unfold SearchInstances, SearchInstances_statement. simpl.
  destruct (sq_ToSql _) as [[stmt args]|err]; [|reflexivity].
  unfold bind, QueryContext, ret.
  destruct (db_Query _ _ _ _) as [rows|err]; [|reflexivity].
  destruct (scanInstances rows) as [r [e|]]; reflexivity.
Qed.

Lemma Queries_Instance_run (q : Queries) (ctx : context_Context) (j : Journal) :
  Queries_Instance q ctx j =
  match sq_ToSql (Instance_statement ctx) with
  | Err err =>
      ((None, Some (ThrowInternal err "QUERY-d9ngs" "Errors.Query.SQLStatement")), j)
  | Ok (query, args) =>
      (scanInstance (RequestedDomain (authz_GetInstance ctx))
                    (db_QueryRow (client q) ctx query args),
       j ++ [ExecQueryRow query args])
  end.
Proof.
  unfold Queries_Instance, Instance_statement. simpl.
  destruct (sq_ToSql _) as [[query args]|err]; reflexivity.
Qed.

Lemma InstanceByHost_run (q : Queries) (ctx : context_Context) (host : string)
    (j : Journal) :
  InstanceByHost q ctx host j =
  match sq_ToSql (InstanceByHost_statement host) with
  | Err err =>
      ((None, Some (ThrowInternal err "QUERY-SAfg2" "Errors.Query.SQLStatement")), j)
  | Ok (query, args) =>
      (scanInstanceDomain host (db_QueryRow (client q) ctx query args),
       j ++ [ExecQueryRow query args])
  end.
Proof.
  unfold InstanceByHost, Queries_InstanceByHost, InstanceByHost_statement.
  simpl. unfold bind, ret, QueryRowContext.
  destruct (sq_ToSql _) as [[query args]|err]; [|reflexivity].
  destruct (scanInstanceDomain host _) as [instance e]. reflexivity.
Qed.

(** A single-row scanner returns an instance or an error, never both and
    never neither. *)
Lemma scanInstance_shape (host : string) (row : sql_Row) :
  (exists i, scanInstance host row = (Some i, None)) \/
  (exists e, scanInstance host row = (None, Some e)).
Proof.
  destruct row as [c|err]; simpl.
  - left. eexists. reflexivity.
  - right. destruct (errs_Is_ErrNoRows err); eexists; reflexivity.
Qed.

Lemma Queries_Instance_shape (q : Queries) (ctx : context_Context) (j : Journal) :
  (exists i, fst (Queries_Instance q ctx j) = (Some i, None)) \/
  (exists e, fst (Queries_Instance q ctx j) = (None, Some e)).
Proof.
  rewrite Queries_Instance_run.
  destruct (sq_ToSql _) as [[query args]|err]; simpl.
  - apply scanInstance_shape.
  - right. eexists. reflexivity.
Qed.

End Unfoldings.

Section Cursor.

Context `{Language}.

(** A cursor position list is all decodable, or has a first failure. *)
Lemma pending_cases (pending : list (result (InstanceColumns * N))) :
  (exists good, pending = map Ok good) \/
  (exists good err rest, pending = map Ok good ++ Err err :: rest).
Proof.
  induction pending as [|[row|err] pending IH].
  - left. exists []. reflexivity.
  - destruct IH as [[good ->]|(good & e & rest & ->)].
    + left. exists (row :: good). reflexivity.
    + right. exists (row :: good), e, rest. reflexivity.
  - right. exists [], err, pending. reflexivity.
Qed.

Lemma scanInstancesLoop_failure (good : list (InstanceColumns * N)) (err : error)
    (rest : list (result (InstanceColumns * N))) (close : option error) :
  forall (instances : list Instance) (count : N),
  scanInstancesLoop (map Ok good ++ Err err :: rest) close instances count
  = (None, Some err).
Proof.
  induction good as [|[c n] good IH]; intros instances count; simpl.
  - reflexivity.
  - apply IH.
Qed.

Lemma scanInstancesLoop_exhausted (good : list (InstanceColumns * N))
    (close : option error) :
  forall (instances : list Instance) (count : N),
  scanInstancesLoop (map Ok good) close instances count
  = match close with
    | Some err =>
        (None, Some (ThrowInternal err "QUERY-8nlWW" "Errors.Query.CloseRows"))
    | None =>
        (Some {| Instances_Instances := instances ++ map decoded good;
                 Instances_SearchResponse := {| Count := last (map snd good) count |} |},
         None)
    end.
Proof.
  induction good as [|[c n] good IH]; intros instances count.
  - simpl. rewrite app_nil_r. reflexivity.
  - cbn [map snd scanInstancesLoop].
    rewrite IH, <- app_assoc, <- (last_cons_default (map snd good) n count).
    reflexivity.
Qed.

End Cursor.

(* ===================================================================== *)
(** ** Statement serialization *)
(* ===================================================================== *)

Lemma fold_LeftJoin_columns (joins : list string) :
  forall b : Fixture.Builder,
  Fixture.b_columns (fold_left (@sq_LeftJoin Fixture.rendering) joins b)
  = Fixture.b_columns b.
Proof.
  induction joins as [|j joins IH]; intros b; simpl; [reflexivity|].
  now rewrite IH.
Qed.

(** The rendering serializer serializes every plain statement. *)
Lemma rendering_serializes_plain_selects :
  @SerializesPlainSelects Fixture.rendering.
Proof.
  intros columns from joins column value Hc. simpl.
  rewrite fold_LeftJoin_columns. simpl.
  destruct columns as [|c columns]; [now elim Hc|].
  eexists. eexists. reflexivity.
Qed.

Section PlainStatements.

Context `{Language} `{Projection} `{QueryPkg}.

Hypothesis plain : SerializesPlainSelects.

(** With a serializer that serializes plain statements, the statements of
    [Instance] and of [InstanceByHost] always serialize. *)
Lemma Instance_statement_serializes (ctx : context_Context) :
  exists query args, sq_ToSql (Instance_statement ctx) = Ok (query, args).
Proof.
  apply (plain instanceColumns (table_identifier instanceTable) []).
  discriminate.
Qed.

Lemma InstanceByHost_statement_serializes (host : string) :
  exists query args, sq_ToSql (InstanceByHost_statement host) = Ok (query, args).
Proof.
  apply (plain instanceColumns (table_identifier instanceTable)
               [join InstanceDomainInstanceIDCol InstanceColumnID]).
  discriminate.
Qed.

End PlainStatements.



(* ===================================================================== *)
(** ** Single-row scans *)
(* ===================================================================== *)

(** C2: the scanners of [prepareInstanceQuery] and of
    [prepareInstanceDomainQuery] return no instance and an error of kind
    NotFound when the row read fails with [sql.ErrNoRows] (the row read
    yielded no row), and an error of kind Internal when it fails with
    anything else. *)
Theorem single_row_scan_failure
    {L : Language} {P : Projection} {S : Squirrel} {Q : @QueryPkg S}
    (host : string) (err : error) :
  (errs_Is_ErrNoRows err = true ->
     failsWith NotFound (snd (prepareInstanceQuery host) (Err err)) /\
     failsWith NotFound (snd (prepareInstanceDomainQuery host) (Err err))) /\
  (errs_Is_ErrNoRows err = false ->
     failsWith Internal (snd (prepareInstanceQuery host) (Err err)) /\
     failsWith Internal (snd (prepareInstanceDomainQuery host) (Err err))).
Proof.
  split; intros E; simpl; rewrite E; split; apply failsWith_Throw.
Qed.

Lemma single_row_scan_failure_witness :
  (failsWith NotFound
     (snd (@prepareInstanceQuery Fixture.tags Fixture.names Fixture.rendering
             (Fixture.package Fixture.rendering) "tenant.example.com")
          (Err sql_ErrNoRows)) /\
   failsWith NotFound
     (snd (@prepareInstanceDomainQuery Fixture.tags Fixture.names Fixture.rendering
             (Fixture.package Fixture.rendering) "tenant.example.com")
          (Err sql_ErrNoRows))) /\
  (failsWith Internal
     (snd (@prepareInstanceQuery Fixture.tags Fixture.names Fixture.rendering
             (Fixture.package Fixture.rendering) "tenant.example.com")
          (Err (errors_New "context canceled"))) /\
   failsWith Internal
     (snd (@prepareInstanceDomainQuery Fixture.tags Fixture.names Fixture.rendering
             (Fixture.package Fixture.rendering) "tenant.example.com")
          (Err (errors_New "context canceled")))).
Proof.
  split.
  - apply (@single_row_scan_failure Fixture.tags Fixture.names Fixture.rendering
             (Fixture.package Fixture.rendering) "tenant.example.com" sql_ErrNoRows).
    reflexivity.
  - apply (@single_row_scan_failure Fixture.tags Fixture.names Fixture.rendering
             (Fixture.package Fixture.rendering) "tenant.example.com"
             (errors_New "context canceled")).
    reflexivity.
Defined.

(* ===================================================================== *)
(** ** Multi-row scans *)
(* ===================================================================== *)

(** The first row that does not decode ends the scan: its error is
    returned as it is, with no collection. *)
Lemma scanInstances_first_failure {L : Language} (rows : sql_Rows)
    (good : list (InstanceColumns * N)) (err : error)
    (rest : list (result (InstanceColumns * N))) :
  rows_pending rows = map Ok good ++ Err err :: rest ->
  scanInstances rows = (None, Some err).
Proof.
  intros E. unfold scanInstances. rewrite E. apply scanInstancesLoop_failure.
Qed.

Lemma scanInstances_exhausted {L : Language} (rows : sql_Rows)
    (good : list (InstanceColumns * N)) :
  rows_pending rows = map Ok good ->
  scanInstances rows
  = match rows_Close rows with
    | Some err =>
        (None, Some (ThrowInternal err "QUERY-8nlWW" "Errors.Query.CloseRows"))
    | None =>
        (Some {| Instances_Instances := map decoded good;
                 Instances_SearchResponse := {| Count := last (map snd good) 0%N |} |},
         None)
    end.
Proof.
  intros E. unfold scanInstances.
  rewrite E, scanInstancesLoop_exhausted. reflexivity.
Qed.

(** C3: on a cursor whose second row does not decode, the scanner of
    [prepareInstancesQuery] returns no collection, and the error it returns
    is the error of [rows.Scan] itself, which is of no zitadel kind: it is
    not wrapped into an Internal error. *)
Theorem scan_decode_failure_is_returned_unwrapped :
  snd (@prepareInstancesQuery Fixture.tags Fixture.names Fixture.rendering
         (Fixture.package Fixture.rendering)) Fixture.brokenRows
  = (None, Some (errors_New "sql: Scan error on column index 3")) /\
  kindOf (errors_New "sql: Scan error on column index 3") = None /\
  ~ failsWith Internal
      (snd (@prepareInstancesQuery Fixture.tags Fixture.names Fixture.rendering
              (Fixture.package Fixture.rendering)) Fixture.brokenRows).
Proof.
  assert (E : @scanInstances Fixture.tags Fixture.brokenRows
              = (None, Some (errors_New "sql: Scan error on column index 3"))).
  { apply (scanInstances_first_failure Fixture.brokenRows
             [(Fixture.zitadel, 2%N)] _ [Ok (Fixture.acme, 2%N)]).
    reflexivity. }
  split; [exact E|]. split; [reflexivity|].
  intros [_ (e & He & Hk)]. vm_compute in He.
  injection He as <-. discriminate Hk.
Qed.

(** C4, as stated, fails: over a result set of zero rows the scanner still
    returns an error when the cursor does not close. *)
Lemma empty_result_scan_may_fail :
  rows_pending Fixture.emptyUnclosable = [] /\
  failsWith Internal
    (snd (@prepareInstancesQuery Fixture.tags Fixture.names Fixture.rendering
            (Fixture.package Fixture.rendering)) Fixture.emptyUnclosable) /\
  ~ (exists instances,
       snd (@prepareInstancesQuery Fixture.tags Fixture.names Fixture.rendering
              (Fixture.package Fixture.rendering)) Fixture.emptyUnclosable
       = (Some instances, None)).
Proof.
  split; [reflexivity|]. split.
  - apply failsWith_Throw.
  - intros [instances E]. discriminate E.
Qed.

(** C4 (amended): over a result set of zero rows, and when releasing the
    cursor succeeds, the scanner of [prepareInstancesQuery] returns without
    error (no NotFound and nothing else) an empty sequence of instances and
    the count zero. *)
Theorem empty_result_scan
    {L : Language} {P : Projection} {S : Squirrel} {Q : @QueryPkg S}
    (rows : sql_Rows) :
  rows_pending rows = [] ->
  rows_Close rows = None ->
  snd prepareInstancesQuery rows
  = (Some {| Instances_Instances := [];
             Instances_SearchResponse := {| Count := 0%N |} |},
     None).
Proof.
  intros Ep Ec. simpl. unfold scanInstances. rewrite Ep, Ec. reflexivity.
Qed.

Lemma empty_result_scan_witness :
  snd (@prepareInstancesQuery Fixture.tags Fixture.names Fixture.rendering
         (Fixture.package Fixture.rendering)) Fixture.emptyRows
  = (Some {| Instances_Instances := [];
             Instances_SearchResponse := {| Count := 0%N |} |},
     None).
Proof.
  apply (@empty_result_scan Fixture.tags Fixture.names Fixture.rendering
           (Fixture.package Fixture.rendering) Fixture.emptyRows);
    reflexivity.
Defined.

(** C8: when every row of the cursor decodes and releasing the cursor
    fails, the scanner of [prepareInstancesQuery] returns no collection and
    an error of kind Internal built around the error of [rows.Close]. *)
Theorem close_failure_after_full_scan
    {L : Language} {P : Projection} {S : Squirrel} {Q : @QueryPkg S}
    (rows : sql_Rows) (good : list (InstanceColumns * N)) (err : error) :
  rows_pending rows = map Ok good ->
  rows_Close rows = Some err ->
  snd prepareInstancesQuery rows
  = (None, Some (ThrowInternal err "QUERY-8nlWW" "Errors.Query.CloseRows")) /\
  failsWith Internal (snd prepareInstancesQuery rows).
Proof.
  intros Ep Ec. simpl. rewrite (scanInstances_exhausted rows good Ep), Ec.
  split; [reflexivity|apply failsWith_Throw].
Qed.

Lemma close_failure_after_full_scan_witness :
  snd (@prepareInstancesQuery Fixture.tags Fixture.names Fixture.rendering
         (Fixture.package Fixture.rendering)) Fixture.unclosable
  = (None, Some (ThrowInternal (errors_New "driver: bad connection")
                   "QUERY-8nlWW" "Errors.Query.CloseRows")) /\
  failsWith Internal
    (snd (@prepareInstancesQuery Fixture.tags Fixture.names Fixture.rendering
            (Fixture.package Fixture.rendering)) Fixture.unclosable).
Proof.
  apply (@close_failure_after_full_scan Fixture.tags Fixture.names
           Fixture.rendering (Fixture.package Fixture.rendering)
           Fixture.unclosable
           [(Fixture.zitadel, 2%N); (Fixture.acme, 2%N)]
           (errors_New "driver: bad connection"));
    reflexivity.
Defined.

(** C10: every instance of a collection that [SearchInstances] returns
    without error has the empty [Host]: the multi-row scanner has no host to
    store and stores none. *)
Theorem SearchInstances_hosts_are_empty
    {L : Language} {P : Projection} {S : Squirrel} {Q : @QueryPkg S}
    (q : Queries) (ctx : context_Context) (queries : InstanceSearchQueries)
    (j : Journal) (instances : Instances) :
  fst (SearchInstances q ctx queries j) = (Some instances, None) ->
  Forall (fun instance => Host instance = "") (Instances_Instances instances).
Proof.
  rewrite SearchInstances_run.
  destruct (sq_ToSql _) as [[stmt args]|e]; simpl; [|discriminate].
  destruct (db_Query _ _ _ _) as [rows|e]; [|discriminate].
  destruct (pending_cases (rows_pending rows))
    as [[good E]|(good & e & rest & E)].
  - rewrite (scanInstances_exhausted rows good E).
    destruct (rows_Close rows); [discriminate|].
    intros [= <-]. simpl. apply Forall_forall.
    intros instance Hin. apply in_map_iff in Hin as (row & <- & _). reflexivity.
  - rewrite (scanInstances_first_failure rows good e rest E). discriminate.
Qed.

Lemma SearchInstances_hosts_are_empty_witness :
  exists instances,
    fst (@SearchInstances Fixture.tags Fixture.names Fixture.rendering
           (Fixture.package Fixture.rendering)
           Fixture.queries Fixture.portRequest Fixture.everything [])
    = (Some instances, None) /\
    length (Instances_Instances instances) = 2 /\
    Forall (fun instance => Host instance = "") (Instances_Instances instances).
Proof.
  eexists. split; [reflexivity|]. split; [reflexivity|].
  apply (@SearchInstances_hosts_are_empty Fixture.tags Fixture.names
           Fixture.rendering (Fixture.package Fixture.rendering)
           Fixture.queries Fixture.portRequest Fixture.everything []).
  reflexivity.
Defined.

(* ===================================================================== *)
(** ** Resolution by host and by context *)
(* ===================================================================== *)

Lemma sameButHost_scanned {L : Language} (a b : Instance) (c : InstanceColumns)
    (tag : language_Tag) :
  sameButHost (setDefaultLanguage (scanInto a c) tag)
              (setDefaultLanguage (scanInto b c) tag).
Proof. repeat split. Qed.

(** C5: for a host [base:port], and more generally for any host whose part
    before the first colon is [base], [InstanceByHost] compares the domain
    column with [base]: the statement it serializes is the prepared one with
    the equality of the domain column and [base]; when that serializes, it
    is sent to the store with its arguments, once, and the result is what
    the scanner makes of the row the store returns for it.  The call for the
    host [base] serializes and sends the same, so either both calls fail
    with the same error or both return an instance, equal in every field
    except [Host], which is the host each call was given. *)
Theorem InstanceByHost_ignores_port
    {L : Language} {P : Projection} {S : Squirrel} {Q : @QueryPkg S}
    (q : Queries) (ctx : context_Context) (base port : string) (j : Journal) :
  lacks colon base = true ->
  match sq_ToSql
          (sq_Where (fst (prepareInstanceDomainQuery (base ++ ":" ++ port)%string))
             {| eq_column := Column_identifier InstanceDomainDomainCol;
                eq_value := VString base |}) with
  | Ok (query, args) =>
      InstanceByHost q ctx (base ++ ":" ++ port)%string j
      = (snd (prepareInstanceDomainQuery (base ++ ":" ++ port)%string)
             (db_QueryRow (client q) ctx query args),
         j ++ [ExecQueryRow query args]) /\
      InstanceByHost q ctx base j
      = (snd (prepareInstanceDomainQuery base)
             (db_QueryRow (client q) ctx query args),
         j ++ [ExecQueryRow query args])
  | Err e =>
      InstanceByHost q ctx (base ++ ":" ++ port)%string j
      = ((None, Some (ThrowInternal e "QUERY-SAfg2" "Errors.Query.SQLStatement")),
         j) /\
      InstanceByHost q ctx base j
      = ((None, Some (ThrowInternal e "QUERY-SAfg2" "Errors.Query.SQLStatement")),
         j)
  end /\
  InstanceByHost_statement (base ++ ":" ++ port)%string
  = sq_Where (fst (prepareInstanceDomainQuery (base ++ ":" ++ port)%string))
             {| eq_column := Column_identifier InstanceDomainDomainCol;
                eq_value := VString base |} /\
  InstanceByHost_statement (base ++ ":" ++ port)%string
  = InstanceByHost_statement base /\
  snd (InstanceByHost q ctx (base ++ ":" ++ port)%string j)
  = snd (InstanceByHost q ctx base j) /\
  match fst (InstanceByHost q ctx (base ++ ":" ++ port)%string j),
        fst (InstanceByHost q ctx base j) with
  | (Some a, None), (Some b, None) =>
      sameButHost a b /\ Host a = (base ++ ":" ++ port)%string /\ Host b = base
  | (None, Some ea), (None, Some eb) => ea = eb
  | _, _ => False
  end.
Proof.
  intros Hl.
  pose proof (stripPort_host_port base port Hl) as Hs.
  pose proof (stripPort_plain base Hl) as Hb.
  assert (E1 : InstanceByHost_statement (base ++ ":" ++ port)%string
               = sq_Where (fst (prepareInstanceDomainQuery (base ++ ":" ++ port)%string))
                   {| eq_column := Column_identifier InstanceDomainDomainCol;
                      eq_value := VString base |}).
  { unfold InstanceByHost_statement. rewrite Hs. reflexivity. }
  assert (E2 : InstanceByHost_statement (base ++ ":" ++ port)%string
               = InstanceByHost_statement base).
  { rewrite E1. unfold InstanceByHost_statement. rewrite Hb. reflexivity. }
  split; [|split; [exact E1|split; [exact E2|]]].
  - rewrite <- E1, !InstanceByHost_run, <- E2.
    destruct (sq_ToSql (InstanceByHost_statement (base ++ ":" ++ port)%string))
      as [[query args]|e]; split; reflexivity.
  - rewrite !InstanceByHost_run, E2.
    destruct (sq_ToSql (InstanceByHost_statement base)) as [[query args]|e]; simpl.
    + split; [reflexivity|].
      destruct (db_QueryRow (client q) ctx query args) as [c|e]; simpl.
      * split; [apply sameButHost_scanned|]. split; reflexivity.
      * destruct (errs_Is_ErrNoRows e); reflexivity.
    + split; reflexivity.
Qed.

Lemma InstanceByHost_ignores_port_witness :
  snd (@InstanceByHost Fixture.tags Fixture.names Fixture.rendering
         (Fixture.package Fixture.rendering)
         Fixture.queries Fixture.portRequest "tenant.example.com:8443" [])
  = [ExecQueryRow
       (Fixture.render
          (@InstanceByHost_statement Fixture.tags Fixture.names Fixture.rendering
             (Fixture.package Fixture.rendering) "tenant.example.com"))
       [VString "tenant.example.com"]] /\
  exists a b,
    fst (@InstanceByHost Fixture.tags Fixture.names Fixture.rendering
           (Fixture.package Fixture.rendering)
           Fixture.queries Fixture.portRequest "tenant.example.com:8443" [])
    = (Some a, None) /\
    fst (@InstanceByHost Fixture.tags Fixture.names Fixture.rendering
           (Fixture.package Fixture.rendering)
           Fixture.queries Fixture.portRequest "tenant.example.com" [])
    = (Some b, None) /\
    ID a = "inst-1" /\
    sameButHost a b /\
    Host a = "tenant.example.com:8443" /\ Host b = "tenant.example.com".
Proof.
  pose proof (@InstanceByHost_ignores_port Fixture.tags Fixture.names
                Fixture.rendering (Fixture.package Fixture.rendering)
                Fixture.queries Fixture.portRequest
                "tenant.example.com" "8443" [] eq_refl)
    as ((Hrun & _) & _ & _ & _ & H).
  split.
  - exact (f_equal snd Hrun).
  - eexists. eexists. split; [reflexivity|]. split; [reflexivity|].
    split; [reflexivity|]. exact H.
Defined.

(** C6: a single-row scan that succeeds returns the instance with the
    default language [language.Make] makes of the stored string; with
    [language.Make] sending the empty string to the undefined tag and "en" to
    the tag that reads "en", a stored empty string yields the undefined tag
    and a stored "en" the tag "en". *)
Theorem single_row_scan_normalizes_language
    {L : Language} {P : Projection} {S : Squirrel} {Q : @QueryPkg S}
    (host : string) (c : InstanceColumns) :
  language_Make "" = language_Und ->
  Tag_String (language_Make "en") = "en" ->
  exists a b,
    snd (prepareInstanceQuery host) (Ok c) = (Some a, None) /\
    snd (prepareInstanceDomainQuery host) (Ok c) = (Some b, None) /\
    DefaultLanguage a = language_Make (c_lang c) /\
    DefaultLanguage b = language_Make (c_lang c) /\
    (c_lang c = "" ->
       DefaultLanguage a = language_Und /\ DefaultLanguage b = language_Und) /\
    (c_lang c = "en" ->
       Tag_String (DefaultLanguage a) = "en" /\
       Tag_String (DefaultLanguage b) = "en").
Proof.
  intros Hund Hen. eexists. eexists.
  split; [reflexivity|]. split; [reflexivity|]. simpl.
  split; [reflexivity|]. split; [reflexivity|].
  split; intros ->; split; assumption.
Qed.

Lemma single_row_scan_normalizes_language_witness :
  (exists a,
     snd (@prepareInstanceQuery Fixture.tags Fixture.names Fixture.rendering
            (Fixture.package Fixture.rendering) "tenant.example.com")
         (Ok Fixture.acme) = (Some a, None) /\
     @DefaultLanguage Fixture.tags a = @language_Und Fixture.tags) /\
  (exists b,
     snd (@prepareInstanceDomainQuery Fixture.tags Fixture.names Fixture.rendering
            (Fixture.package Fixture.rendering) "tenant.example.com")
         (Ok Fixture.zitadel) = (Some b, None) /\
     @Tag_String Fixture.tags (@DefaultLanguage Fixture.tags b) = "en").
Proof.
  split.
  - destruct (@single_row_scan_normalizes_language Fixture.tags Fixture.names
                Fixture.rendering (Fixture.package Fixture.rendering)
                "tenant.example.com" Fixture.acme eq_refl eq_refl)
      as (a & b & Ea & _ & _ & _ & Hund & _).
    exists a. split; [exact Ea|]. apply Hund. reflexivity.
  - destruct (@single_row_scan_normalizes_language Fixture.tags Fixture.names
                Fixture.rendering (Fixture.package Fixture.rendering)
                "tenant.example.com" Fixture.zitadel eq_refl eq_refl)
      as (a & b & _ & Eb & _ & _ & _ & Hen).
    exists b. split; [exact Eb|]. apply Hen. reflexivity.
Defined.

(** C7: [GetDefaultLanguage] always returns a tag (it has no error result
    and it does not dereference nil): the undefined tag whenever [Instance]
    returns an error, of whatever kind, and the default language of the
    resolved instance when [Instance] succeeds.  It sends to the store what
    [Instance] sends. *)
Theorem GetDefaultLanguage_never_fails
    {L : Language} {P : Projection} {S : Squirrel} {Q : @QueryPkg S}
    (q : Queries) (ctx : context_Context) (j : Journal) :
  exists tag,
    GetDefaultLanguage q ctx j = (Some tag, snd (Queries_Instance q ctx j)) /\
    (forall err, snd (fst (Queries_Instance q ctx j)) = Some err ->
                 tag = language_Und) /\
    (forall iam, fst (Queries_Instance q ctx j) = (Some iam, None) ->
                 tag = DefaultLanguage iam).
Proof.
  unfold GetDefaultLanguage, bind, ret.
  destruct (Queries_Instance_shape q ctx j) as [[i E]|[e E]];
    destruct (Queries_Instance q ctx j) as [r j1]; simpl in E; subst r; simpl.
  - exists (DefaultLanguage i). split; [reflexivity|]. split.
    + intros err [=].
    + intros iam [= ->]. reflexivity.
  - exists language_Und. split; [reflexivity|]. split.
    + reflexivity.
    + intros iam [=].
Qed.

Lemma GetDefaultLanguage_never_fails_witness :
  fst (@GetDefaultLanguage Fixture.tags Fixture.names Fixture.rendering
         (Fixture.package Fixture.rendering)
         Fixture.queries (Fixture.request "inst-9" "nowhere.example.com") [])
  = Some (@language_Und Fixture.tags) /\
  fst (@GetDefaultLanguage Fixture.tags Fixture.names Fixture.rendering
         (Fixture.package Fixture.rendering)
         Fixture.queries Fixture.portRequest [])
  = Some (@language_Make Fixture.tags "en").
Proof.
  split.
  - destruct (@GetDefaultLanguage_never_fails Fixture.tags Fixture.names
                Fixture.rendering (Fixture.package Fixture.rendering)
                Fixture.queries (Fixture.request "inst-9" "nowhere.example.com") [])
      as (tag & E & Hfail & _).
    rewrite E. simpl. f_equal. eapply Hfail. reflexivity.
  - destruct (@GetDefaultLanguage_never_fails Fixture.tags Fixture.names
                Fixture.rendering (Fixture.package Fixture.rendering)
                Fixture.queries Fixture.portRequest [])
      as (tag & E & _ & Hok).
    rewrite E. simpl. f_equal. rewrite (Hok _ eq_refl). reflexivity.
Defined.

(** C9: the instance that [Instance] resolves has for [Host] the requested
    domain of the instance attached to the context, and the instance that
    [InstanceByHost] resolves has for [Host] the host string it was given,
    port included; [RequestedDomain] reads that same string. *)
Theorem resolved_Host_is_the_supplied_host
    {L : Language} {P : Projection} {S : Squirrel} {Q : @QueryPkg S}
    (q : Queries) (ctx : context_Context) (host : string) (j : Journal)
    (instance : Instance) :
  (fst (Queries_Instance q ctx j) = (Some instance, None) ->
     Host instance = RequestedDomain (authz_GetInstance ctx) /\
     RequestedDomain instance = RequestedDomain (authz_GetInstance ctx)) /\
  (fst (InstanceByHost q ctx host j) = (Some instance, None) ->
     Host instance = host /\ RequestedDomain instance = host).
Proof.
  split.
  - rewrite Queries_Instance_run.
    destruct (sq_ToSql _) as [[query args]|e]; simpl; [|discriminate].
    destruct (db_QueryRow _ _ _ _) as [c|e]; simpl.
    + intros [= <-]. split; reflexivity.
    + destruct (errs_Is_ErrNoRows e); discriminate.
  - rewrite InstanceByHost_run.
    destruct (sq_ToSql _) as [[query args]|e]; simpl; [|discriminate].
    destruct (db_QueryRow _ _ _ _) as [c|e]; simpl.
    + intros [= <-]. split; reflexivity.
    + destruct (errs_Is_ErrNoRows e); discriminate.
Qed.

Lemma resolved_Host_is_the_supplied_host_witness :
  (exists a,
     fst (@Queries_Instance Fixture.tags Fixture.names Fixture.rendering
            (Fixture.package Fixture.rendering)
            Fixture.queries Fixture.portRequest [])
     = (Some a, None) /\
     Host a = "tenant.example.com:8443") /\
  (exists b,
     fst (@InstanceByHost Fixture.tags Fixture.names Fixture.rendering
            (Fixture.package Fixture.rendering)
            Fixture.queries Fixture.portRequest "tenant.example.com:8443" [])
     = (Some b, None) /\
     Host b = "tenant.example.com:8443").
Proof.
  split; eexists; (split; [reflexivity|]).
  - match goal with
    | |- Host ?a = _ =>
        exact (proj1 (proj1 (@resolved_Host_is_the_supplied_host
                               Fixture.tags Fixture.names Fixture.rendering
                               (Fixture.package Fixture.rendering)
                               Fixture.queries Fixture.portRequest "" [] a)
                            eq_refl))
    end.
  - match goal with
    | |- Host ?b = _ =>
        exact (proj1 (proj2 (@resolved_Host_is_the_supplied_host
                               Fixture.tags Fixture.names Fixture.rendering
                               (Fixture.package Fixture.rendering)
                               Fixture.queries Fixture.portRequest
                               "tenant.example.com:8443" [] b)
                            eq_refl))
    end.
Defined.

(* ===================================================================== *)
(** ** Further properties: the host filter *)
(* ===================================================================== *)

Lemma stripPort_String (c : ascii) (rest : string) :
  stripPort (String c rest)
  = if Ascii.eqb c colon then EmptyString else String c (stripPort rest).
Proof.
  unfold stripPort. simpl. destruct (Ascii.eqb c colon); [reflexivity|].
  destruct (strings_Split rest colon) eqn:E; [|reflexivity].
  now apply strings_Split_nonempty in E.
Qed.

Lemma stripPort_lacks_colon (host : string) :
  lacks colon (stripPort host) = true.
Proof.
  induction host as [|c rest IH]; [reflexivity|].
  rewrite stripPort_String. destruct (Ascii.eqb c colon) eqn:E; [reflexivity|].
  simpl. now rewrite E, IH.
Qed.

(** X1: [strings.Split(host, ":")[0]] is the longest prefix of [host]
    without a colon: it has no colon, what follows it in [host] is empty or
    begins with a colon, and stripping it again changes nothing. *)
Theorem stripPort_longest_colon_free_prefix (host : string) :
  lacks colon (stripPort host) = true /\
  stripPort (stripPort host) = stripPort host /\
  exists tail,
    host = (stripPort host ++ tail)%string /\
    (tail = EmptyString \/ exists rest, tail = String colon rest).
Proof.
  split; [apply stripPort_lacks_colon|].
  split; [apply stripPort_plain, stripPort_lacks_colon|].
  induction host as [|c rest (tail & E & Ht)].
  - exists EmptyString. split; [reflexivity|now left].
  - rewrite stripPort_String. destruct (Ascii.eqb c colon) eqn:Ec.
    + apply Ascii.eqb_eq in Ec as ->.
      exists (String colon rest). split; [reflexivity|]. right. now exists rest.
    + exists tail. split; [|exact Ht]. simpl. now rewrite <- E.
Qed.

(** X2: [InstanceByHost] depends on the host only through its part before
    the first colon: for two hosts with the same such part it sends the same
    to the store, and both calls fail with the same error or both return an
    instance, equal in every field except [Host]. *)
Theorem InstanceByHost_depends_on_stripped_host
    {L : Language} {P : Projection} {S : Squirrel} {Q : @QueryPkg S}
    (q : Queries) (ctx : context_Context) (h1 h2 : string) (j : Journal) :
  stripPort h1 = stripPort h2 ->
  snd (InstanceByHost q ctx h1 j) = snd (InstanceByHost q ctx h2 j) /\
  match fst (InstanceByHost q ctx h1 j), fst (InstanceByHost q ctx h2 j) with
  | (Some a, None), (Some b, None) =>
      sameButHost a b /\ Host a = h1 /\ Host b = h2
  | (None, Some ea), (None, Some eb) => ea = eb
  | _, _ => False
  end.
Proof.
  intros E.
  assert (Es : InstanceByHost_statement h1 = InstanceByHost_statement h2).
  { unfold InstanceByHost_statement. simpl. now rewrite E. }
  rewrite !InstanceByHost_run, Es.
  destruct (sq_ToSql (InstanceByHost_statement h2)) as [[query args]|e]; simpl.
  - split; [reflexivity|].
    destruct (db_QueryRow (client q) ctx query args) as [c|e]; simpl.
    + split; [apply sameButHost_scanned|]. split; reflexivity.
    + destruct (errs_Is_ErrNoRows e); reflexivity.
  - split; reflexivity.
Qed.

Lemma InstanceByHost_depends_on_stripped_host_witness :
  exists a b,
    fst (@InstanceByHost Fixture.tags Fixture.names Fixture.rendering
           (Fixture.package Fixture.rendering)
           Fixture.queries Fixture.portRequest "tenant.example.com:8443" [])
    = (Some a, None) /\
    fst (@InstanceByHost Fixture.tags Fixture.names Fixture.rendering
           (Fixture.package Fixture.rendering)
           Fixture.queries Fixture.portRequest "tenant.example.com:443:x" [])
    = (Some b, None) /\
    sameButHost a b /\
    Host a = "tenant.example.com:8443" /\ Host b = "tenant.example.com:443:x".
Proof.
  pose proof (@InstanceByHost_depends_on_stripped_host Fixture.tags
                Fixture.names Fixture.rendering
                (Fixture.package Fixture.rendering)
                Fixture.queries Fixture.portRequest
                "tenant.example.com:8443" "tenant.example.com:443:x" []
                eq_refl) as (_ & H).
  eexists. eexists. split; [reflexivity|]. split; [reflexivity|]. exact H.
Defined.

(* ===================================================================== *)
(** ** Further properties: the single-row operations *)
(* ===================================================================== *)

Lemma scanInstance_NotFound_iff {L : Language} (host : string) (row : sql_Row) :
  failsWith NotFound (scanInstance host row) <->
  exists e, row = Err e /\ errs_Is_ErrNoRows e = true.
Proof.
  destruct row as [c|e]; simpl.
  - split.
    + intros [Hn _]. discriminate Hn.
    + intros (e & He & _). discriminate He.
  - destruct (errs_Is_ErrNoRows e) eqn:E; split.
    + intros _. now exists e.
    + intros _. apply failsWith_Throw.
    + intros [_ (e' & He & Hk)]. simpl in He. injection He as <-. discriminate Hk.
    + intros (e' & [= <-] & He). congruence.
Qed.

(** X3: [Instance] and [InstanceByHost] return an error of kind NotFound
    exactly when their statement serialized and the row read from the store
    for it failed with [sql.ErrNoRows]. *)
Theorem single_row_NotFound_iff_no_row
    {L : Language} {P : Projection} {S : Squirrel} {Q : @QueryPkg S}
    (q : Queries) (ctx : context_Context) (host : string) (j : Journal) :
  (failsWith NotFound (fst (Queries_Instance q ctx j)) <->
   exists query args e,
     sq_ToSql (Instance_statement ctx) = Ok (query, args) /\
     db_QueryRow (client q) ctx query args = Err e /\
     errs_Is_ErrNoRows e = true) /\
  (failsWith NotFound (fst (InstanceByHost q ctx host j)) <->
   exists query args e,
     sq_ToSql (InstanceByHost_statement host) = Ok (query, args) /\
     db_QueryRow (client q) ctx query args = Err e /\
     errs_Is_ErrNoRows e = true).
Proof.
  split.
  - rewrite Queries_Instance_run.
    destruct (sq_ToSql (Instance_statement ctx)) as [[query args]|e]; simpl.
    + rewrite scanInstance_NotFound_iff. split.
      * intros (e & He & Hn). now exists query, args, e.
      * intros (query' & args' & e & [= <- <-] & He & Hn). now exists e.
    + split.
      * intros [_ (e' & [= <-] & Hk)]. discriminate Hk.
      * intros (query & args & e' & He & _). discriminate He.
  - rewrite InstanceByHost_run.
    destruct (sq_ToSql (InstanceByHost_statement host)) as [[query args]|e]; simpl.
    + change (scanInstanceDomain host) with (scanInstance host).
      rewrite scanInstance_NotFound_iff. split.
      * intros (e & He & Hn). now exists query, args, e.
      * intros (query' & args' & e & [= <- <-] & He & Hn). now exists e.
    + split.
      * intros [_ (e' & [= <-] & Hk)]. discriminate Hk.
      * intros (query & args & e' & He & _). discriminate He.
Qed.

Lemma single_row_NotFound_iff_no_row_witness :
  failsWith NotFound
    (fst (@Queries_Instance Fixture.tags Fixture.names Fixture.rendering
            (Fixture.package Fixture.rendering)
            Fixture.queries (Fixture.request "inst-9" "nowhere.example.com") [])) /\
  failsWith NotFound
    (fst (@InstanceByHost Fixture.tags Fixture.names Fixture.rendering
            (Fixture.package Fixture.rendering)
            Fixture.queries Fixture.portRequest "nowhere.example.com:8443" [])).
Proof.
  split.
  - apply (proj1 (@single_row_NotFound_iff_no_row Fixture.tags Fixture.names
                    Fixture.rendering (Fixture.package Fixture.rendering)
                    Fixture.queries (Fixture.request "inst-9" "nowhere.example.com")
                    "" [])).
    eexists. eexists. exists sql_ErrNoRows.
    split; [reflexivity|]. split; reflexivity.
  - apply (proj2 (@single_row_NotFound_iff_no_row Fixture.tags Fixture.names
                    Fixture.rendering (Fixture.package Fixture.rendering)
                    Fixture.queries Fixture.portRequest
                    "nowhere.example.com:8443" [])).
    eexists. eexists. exists sql_ErrNoRows.
    split; [reflexivity|]. split; reflexivity.
Defined.

Lemma scanInstance_success {L : Language} (host : string) (row : sql_Row)
    (instance : Instance) :
  scanInstance host row = (Some instance, None) ->
  exists c, row = Ok c /\ storedAs instance c /\ Host instance = host.
Proof.
  destruct row as [c|e]; simpl.
  - intros [= <-]. exists c. split; [reflexivity|].
    split; [repeat split|reflexivity].
  - destruct (errs_Is_ErrNoRows e); discriminate.
Qed.

(** X5: seen through [authz.Instance], the instance that [InstanceByHost]
    resolves exposes the id, project id, console client id and console
    application id columns of the row the store returned, and as requested
    domain the host it was given. *)
Theorem InstanceByHost_identity_view
    {L : Language} {P : Projection} {S : Squirrel} {Q : @QueryPkg S}
    (q : Queries) (ctx : context_Context) (host : string) (j : Journal)
    (instance : Instance) :
  fst (InstanceByHost q ctx host j) = (Some instance, None) ->
  exists query args c,
    sq_ToSql (InstanceByHost_statement host) = Ok (query, args) /\
    db_QueryRow (client q) ctx query args = Ok c /\
    InstanceID instance = c_ID c /\
    ProjectID instance = c_ProjectID c /\
    ConsoleClientID instance = c_ConsoleID c /\
    ConsoleApplicationID instance = c_ConsoleAppID c /\
    RequestedDomain instance = host.
Proof.
  rewrite InstanceByHost_run.
  destruct (sq_ToSql (InstanceByHost_statement host)) as [[query args]|e]; simpl;
    [|discriminate].
  change (scanInstanceDomain host) with (scanInstance host).
  intros E. apply scanInstance_success in E as (c & Er & Hs & Hh).
  exists query, args, c. split; [reflexivity|]. split; [exact Er|].
  destruct Hs as (H1 & _ & _ & _ & _ & H6 & H7 & H8 & _).
  simpl. repeat split; assumption.
Qed.

Lemma InstanceByHost_identity_view_witness :
  exists b,
    fst (@InstanceByHost Fixture.tags Fixture.names Fixture.rendering
           (Fixture.package Fixture.rendering)
           Fixture.queries Fixture.portRequest "tenant.example.com:8443" [])
    = (Some b, None) /\
    InstanceID b = "inst-1" /\
    ProjectID b = "proj-1" /\
    ConsoleClientID b = "console-1" /\
    ConsoleApplicationID b = "app-1" /\
    RequestedDomain b = "tenant.example.com:8443".
Proof.
  eexists. split; [reflexivity|].
  match goal with
  | |- InstanceID ?b = _ /\ _ =>
      destruct (@InstanceByHost_identity_view
                  Fixture.tags Fixture.names Fixture.rendering
                  (Fixture.package Fixture.rendering)
                  Fixture.queries Fixture.portRequest
                  "tenant.example.com:8443" [] b eq_refl)
        as (query & args & c & Es & Er & H)
  end.
  injection Es as <- <-. injection Er as <-. exact H.
Defined.

(** X6: the requested domain of the context reaches the result of
    [Instance] through [Host] only.  For two contexts with the same instance
    id to which the store answers alike, [Instance] serializes the same
    statement, sends the same to the store, and both calls fail with the same
    error or both return an instance, equal in every field except [Host]. *)
Theorem Instance_requested_domain_only_sets_Host
    {L : Language} {P : Projection} {S : Squirrel} {Q : @QueryPkg S}
    (q : Queries) (ctx1 ctx2 : context_Context) (j : Journal) :
  InstanceID (authz_GetInstance ctx1) = InstanceID (authz_GetInstance ctx2) ->
  (forall query args,
     db_QueryRow (client q) ctx1 query args
     = db_QueryRow (client q) ctx2 query args) ->
  Instance_statement ctx1 = Instance_statement ctx2 /\
  snd (Queries_Instance q ctx1 j) = snd (Queries_Instance q ctx2 j) /\
  match fst (Queries_Instance q ctx1 j), fst (Queries_Instance q ctx2 j) with
  | (Some a, None), (Some b, None) =>
      sameButHost a b /\
      Host a = RequestedDomain (authz_GetInstance ctx1) /\
      Host b = RequestedDomain (authz_GetInstance ctx2)
  | (None, Some ea), (None, Some eb) => ea = eb
  | _, _ => False
  end.
Proof.
  intros E Hstore.
  assert (Es : Instance_statement ctx1 = Instance_statement ctx2).
  { unfold Instance_statement. simpl in *. now rewrite E. }
  split; [exact Es|].
  rewrite !Queries_Instance_run, Es.
  destruct (sq_ToSql (Instance_statement ctx2)) as [[query args]|e]; simpl.
  - split; [reflexivity|]. rewrite Hstore.
    destruct (db_QueryRow (client q) ctx2 query args) as [c|e]; simpl.
    + split; [apply sameButHost_scanned|]. split; reflexivity.
    + destruct (errs_Is_ErrNoRows e); reflexivity.
  - split; reflexivity.
Qed.

Lemma Instance_requested_domain_only_sets_Host_witness :
  exists a b,
    fst (@Queries_Instance Fixture.tags Fixture.names Fixture.rendering
           (Fixture.package Fixture.rendering)
           Fixture.queries (Fixture.request "inst-1" "tenant.example.com:8443") [])
    = (Some a, None) /\
    fst (@Queries_Instance Fixture.tags Fixture.names Fixture.rendering
           (Fixture.package Fixture.rendering)
           Fixture.queries (Fixture.request "inst-1" "other.example.com") [])
    = (Some b, None) /\
    sameButHost a b /\
    Host a = "tenant.example.com:8443" /\ Host b = "other.example.com".
Proof.
  pose proof (@Instance_requested_domain_only_sets_Host Fixture.tags
                Fixture.names Fixture.rendering
                (Fixture.package Fixture.rendering) Fixture.queries
                (Fixture.request "inst-1" "tenant.example.com:8443")
                (Fixture.request "inst-1" "other.example.com") []
                eq_refl (fun _ _ => eq_refl)) as (_ & _ & H).
  eexists. eexists. split; [reflexivity|]. split; [reflexivity|]. exact H.
Defined.

(* ===================================================================== *)
(** ** Further properties: results and effects of the operations *)
(* ===================================================================== *)

Lemma scanInstances_shape {L : Language} (rows : sql_Rows) :
  (exists instances, scanInstances rows = (Some instances, None)) \/
  (exists e, scanInstances rows = (None, Some e)).
Proof.
  destruct (pending_cases (rows_pending rows))
    as [[good E]|(good & e & rest & E)].
  - rewrite (scanInstances_exhausted rows good E).
    destruct (rows_Close rows); [right|left]; eexists; reflexivity.
  - right. exists e. now apply scanInstances_first_failure with good rest.
Qed.

(** X7: [SearchInstances] and [Instance] return either a value and no
    error, or no value and an error.  [InstanceByHost] returns either an
    instance and no error, or an error; with the error, the interface it
    returns is nil only when the statement did not serialize: after a row
    read that failed it is an interface that holds a nil [*Instance], which
    does not compare equal to nil. *)
Theorem operations_return_value_or_error
    {L : Language} {P : Projection} {S : Squirrel} {Q : @QueryPkg S}
    (q : Queries) (ctx : context_Context) (queries : InstanceSearchQueries)
    (host : string) (j : Journal) :
  ((exists instances,
      fst (SearchInstances q ctx queries j) = (Some instances, None)) \/
   (exists e, fst (SearchInstances q ctx queries j) = (None, Some e))) /\
  ((exists instance,
      fst (Queries_Instance q ctx j) = (Some instance, None)) \/
   (exists e, fst (Queries_Instance q ctx j) = (None, Some e))) /\
  match sq_ToSql
          (sq_Where (fst (prepareInstanceDomainQuery host))
             {| eq_column := Column_identifier InstanceDomainDomainCol;
                eq_value := VString (stripPort host) |}) with
  | Err cause =>
      fst (Queries_InstanceByHost q ctx host j)
      = (authz_nil,
         Some (ThrowInternal cause "QUERY-SAfg2" "Errors.Query.SQLStatement"))
  | Ok (query, args) =>
      match db_QueryRow (client q) ctx query args with
      | Ok c =>
          exists instance,
            fst (Queries_InstanceByHost q ctx host j)
            = (authz_holds (Some instance), None)
      | Err cause =>
          exists e,
            fst (Queries_InstanceByHost q ctx host j)
            = (authz_holds None, Some e)
      end
  end.
Proof.
  split; [|split].
  - rewrite SearchInstances_run.
    destruct (sq_ToSql _) as [[stmt args]|e]; simpl;
      [|right; eexists; reflexivity].
    destruct (db_Query _ _ _ _) as [rows|e]; [|right; eexists; reflexivity].
    destruct (scanInstances_shape rows) as [[r ->]|[e ->]];
      [left|right]; eexists; reflexivity.
  - apply Queries_Instance_shape.
  - unfold Queries_InstanceByHost. simpl.
    destruct (sq_ToSql _) as [[query args]|cause]; [|reflexivity].
    unfold bind, ret, QueryRowContext.
    destruct (db_QueryRow (client q) ctx query args) as [c|cause]; simpl.
    + eexists. reflexivity.
    + destruct (errs_Is_ErrNoRows cause); eexists; reflexivity.
Qed.

(** X8: an operation sends at most one statement to the store and keeps
    what was sent before: exactly the serialized statement with its
    arguments when serialization succeeds, nothing when it fails; whatever
    the store answers, nothing is sent again.  [GetDefaultLanguage] sends
    what [Instance] sends. *)
Theorem operations_send_the_statement_once
    {L : Language} {P : Projection} {S : Squirrel} {Q : @QueryPkg S}
    (q : Queries) (ctx : context_Context) (queries : InstanceSearchQueries)
    (host : string) (j : Journal) :
  snd (SearchInstances q ctx queries j)
  = j ++ match sq_ToSql (SearchInstances_statement queries) with
         | Ok (stmt, args) => [ExecQuery stmt args]
         | Err _ => []
         end /\
  snd (Queries_Instance q ctx j)
  = j ++ match sq_ToSql (Instance_statement ctx) with
         | Ok (query, args) => [ExecQueryRow query args]
         | Err _ => []
         end /\
  snd (InstanceByHost q ctx host j)
  = j ++ match sq_ToSql (InstanceByHost_statement host) with
         | Ok (query, args) => [ExecQueryRow query args]
         | Err _ => []
         end /\
  snd (GetDefaultLanguage q ctx j)
  = j ++ match sq_ToSql (Instance_statement ctx) with
         | Ok (query, args) => [ExecQueryRow query args]
         | Err _ => []
         end.
Proof.
  assert (HI : snd (Queries_Instance q ctx j)
               = j ++ match sq_ToSql (Instance_statement ctx) with
                      | Ok (query, args) => [ExecQueryRow query args]
                      | Err _ => []
                      end).
  { rewrite Queries_Instance_run.
    destruct (sq_ToSql _) as [[query args]|e]; simpl;
      [reflexivity|now rewrite app_nil_r]. }
  split; [|split; [exact HI|split]].
  - rewrite SearchInstances_run.
    destruct (sq_ToSql (SearchInstances_statement queries)) as [[stmt args]|e];
      simpl; [reflexivity|now rewrite app_nil_r].
  - rewrite InstanceByHost_run.
    destruct (sq_ToSql (InstanceByHost_statement host)) as [[query args]|e];
      simpl; [reflexivity|now rewrite app_nil_r].
  - rewrite <- HI. unfold GetDefaultLanguage, bind, ret.
    destruct (Queries_Instance q ctx j) as [[[iam|] [e|]] j1]; reflexivity.
Qed.

(* ===================================================================== *)
(** ** Further properties: collection queries *)
(* ===================================================================== *)

Lemma SearchInstances_success_rows
    {L : Language} {P : Projection} {S : Squirrel} {Q : @QueryPkg S}
    (q : Queries) (ctx : context_Context) (queries : InstanceSearchQueries)
    (j : Journal) (instances : Instances) :
  fst (SearchInstances q ctx queries j) = (Some instances, None) ->
  exists stmt args rows good,
    sq_ToSql (SearchInstances_statement queries) = Ok (stmt, args) /\
    db_Query (client q) ctx stmt args = Ok rows /\
    rows_pending rows = map Ok good /\
    rows_Close rows = None /\
    Instances_Instances instances = map decoded good /\
    Count (Instances_SearchResponse instances) = last (map snd good) 0%N.
Proof.
  rewrite SearchInstances_run.
  destruct (sq_ToSql (SearchInstances_statement queries)) as [[stmt args]|e];
    simpl; [|discriminate].
  destruct (db_Query (client q) ctx stmt args) as [rows|e] eqn:Eq;
    [|discriminate].
  destruct (pending_cases (rows_pending rows))
    as [[good E]|(good & e & rest & E)].
  - rewrite (scanInstances_exhausted rows good E).
    destruct (rows_Close rows) eqn:Ec; [discriminate|].
    intros [= <-]. exists stmt, args, rows, good. repeat split; assumption.
  - rewrite (scanInstances_first_failure rows good e rest E). discriminate.
Qed.

(** X9: [SearchInstances] succeeds exactly when the statement serializes,
    the store returns a cursor, every row the cursor delivers decodes and
    the cursor closes; the collection then holds one instance per row, in
    the order of the rows, and its count is the count column of the last
    row (zero without rows).  The iteration error of the cursor plays no
    part. *)
Theorem SearchInstances_success_iff
    {L : Language} {P : Projection} {S : Squirrel} {Q : @QueryPkg S}
    (q : Queries) (ctx : context_Context) (queries : InstanceSearchQueries)
    (j : Journal) (instances : Instances) :
  fst (SearchInstances q ctx queries j) = (Some instances, None) <->
  exists stmt args rows good,
    sq_ToSql (SearchInstances_statement queries) = Ok (stmt, args) /\
    db_Query (client q) ctx stmt args = Ok rows /\
    rows_pending rows = map Ok good /\
    rows_Close rows = None /\
    Instances_Instances instances = map decoded good /\
    Count (Instances_SearchResponse instances) = last (map snd good) 0%N.
Proof.
  split; [apply SearchInstances_success_rows|].
  intros (stmt & args & rows & good & Es & Eq & Ep & Ec & Ei & En).
  rewrite SearchInstances_run, Es. simpl.
  rewrite Eq, (scanInstances_exhausted rows good Ep), Ec.
  destruct instances as [[count] list]. simpl in Ei, En. now subst.
Qed.

Lemma SearchInstances_success_iff_witness :
  fst (@SearchInstances Fixture.tags Fixture.names Fixture.rendering
         (Fixture.package Fixture.rendering)
         Fixture.queries Fixture.portRequest Fixture.everything [])
  = (Some {| Instances_Instances :=
               map (@decoded Fixture.tags)
                   [(Fixture.zitadel, 2%N); (Fixture.acme, 2%N)];
             Instances_SearchResponse := {| Count := 2%N |} |},
     None).
Proof.
  apply (proj2 (@SearchInstances_success_iff Fixture.tags Fixture.names
                  Fixture.rendering (Fixture.package Fixture.rendering)
                  Fixture.queries Fixture.portRequest Fixture.everything [] _)).
  eexists. eexists.
  exists {| rows_pending := [Ok (Fixture.zitadel, 2%N); Ok (Fixture.acme, 2%N)];
            rows_Err := None; rows_Close := None |}.
  exists [(Fixture.zitadel, 2%N); (Fixture.acme, 2%N)].
  repeat split; reflexivity.
Defined.

(** X10: where an error of [SearchInstances] comes from.  With an error no
    collection is returned, and the error is the serialization error wrapped
    as InvalidArgument, or the error of the store wrapped as Internal, or
    the error of closing a fully decoded cursor wrapped as Internal, or, not
    wrapped, the error of the first row that did not decode. *)
Theorem SearchInstances_error_origin
    {L : Language} {P : Projection} {S : Squirrel} {Q : @QueryPkg S}
    (q : Queries) (ctx : context_Context) (queries : InstanceSearchQueries)
    (j : Journal) (r : option Instances) (e : error) :
  fst (SearchInstances q ctx queries j) = (r, Some e) ->
  r = None /\
  ((exists cause,
      sq_ToSql (SearchInstances_statement queries) = Err cause /\
      e = ThrowInvalidArgument cause "QUERY-M9fow" "Errors.Query.SQLStatement") \/
   (exists stmt args,
      sq_ToSql (SearchInstances_statement queries) = Ok (stmt, args) /\
      ((exists cause,
          db_Query (client q) ctx stmt args = Err cause /\
          e = ThrowInternal cause "QUERY-3j98f" "Errors.Internal") \/
       (exists rows,
          db_Query (client q) ctx stmt args = Ok rows /\
          ((exists good rest,
              rows_pending rows = map Ok good ++ Err e :: rest) \/
           (exists good cause,
              rows_pending rows = map Ok good /\
              rows_Close rows = Some cause /\
              e = ThrowInternal cause "QUERY-8nlWW" "Errors.Query.CloseRows")))))).
Proof.
  rewrite SearchInstances_run.
  destruct (sq_ToSql (SearchInstances_statement queries)) as [[stmt args]|cause];
    simpl.
  - destruct (db_Query (client q) ctx stmt args) as [rows|cause] eqn:Eq.
    + destruct (pending_cases (rows_pending rows))
        as [[good E]|(good & e' & rest & E)].
      * rewrite (scanInstances_exhausted rows good E).
        destruct (rows_Close rows) as [cause|] eqn:Ec; [|discriminate].
        intros [= <- <-]. split; [reflexivity|]. right.
        exists stmt, args. split; [reflexivity|]. right.
        exists rows. split; [exact Eq|]. right. now exists good, cause.
      * rewrite (scanInstances_first_failure rows good e' rest E).
        intros [= <- <-]. split; [reflexivity|]. right.
        exists stmt, args. split; [reflexivity|]. right.
        exists rows. split; [exact Eq|]. left. now exists good, rest.
    + intros [= <- <-]. split; [reflexivity|]. right.
      exists stmt, args. split; [reflexivity|]. left.
      exists cause. split; [exact Eq|reflexivity].
  - intros [= <- <-]. split; [reflexivity|]. left. now exists cause.
Qed.

Lemma SearchInstances_error_origin_witness :
  fst (@SearchInstances Fixture.tags Fixture.names Fixture.rendering
         (Fixture.package Fixture.rendering)
         Scenario.brokenQueries Fixture.portRequest Fixture.everything [])
  = (None, Some (errors_New "sql: Scan error on column index 3")) /\
  exists good rest,
    rows_pending Fixture.brokenRows
    = map Ok good ++ Err (errors_New "sql: Scan error on column index 3") :: rest.
Proof.
  split; [reflexivity|].
  destruct (@SearchInstances_error_origin Fixture.tags Fixture.names
              Fixture.rendering (Fixture.package Fixture.rendering)
              Scenario.brokenQueries Fixture.portRequest Fixture.everything []
              None (errors_New "sql: Scan error on column index 3") eq_refl)
    as [_ [(cause & Es & _)|(stmt & args & _ & [(cause & Eq & _)|(rows & Eq & H)])]].
  - discriminate Es.
  - discriminate Eq.
  - injection Eq as <-.
    destruct H as [H|(good & cause & _ & Ec & _)]; [exact H|discriminate Ec].
Defined.

(** X11: every instance of a collection that [SearchInstances] returns has
    the undefined default language, whatever language the rows store: the
    multi-row scanner reads the language column and drops it. *)
Theorem SearchInstances_languages_are_undefined
    {L : Language} {P : Projection} {S : Squirrel} {Q : @QueryPkg S}
    (q : Queries) (ctx : context_Context) (queries : InstanceSearchQueries)
    (j : Journal) (instances : Instances) :
  fst (SearchInstances q ctx queries j) = (Some instances, None) ->
  Forall (fun instance => DefaultLanguage instance = language_Und)
         (Instances_Instances instances).
Proof.
  intros E. apply SearchInstances_success_rows in E
    as (stmt & args & rows & good & _ & _ & _ & _ & -> & _).
  apply Forall_forall. intros instance Hin.
  apply in_map_iff in Hin as (row & <- & _). reflexivity.
Qed.

Lemma SearchInstances_languages_are_undefined_witness :
  c_lang Fixture.zitadel = "en" /\
  exists instances,
    fst (@SearchInstances Fixture.tags Fixture.names Fixture.rendering
           (Fixture.package Fixture.rendering)
           Fixture.queries Fixture.portRequest Fixture.everything [])
    = (Some instances, None) /\
    map ID (Instances_Instances instances) = ["inst-1"; "inst-2"] /\
    Forall (fun instance => @DefaultLanguage Fixture.tags instance
                            = @language_Und Fixture.tags)
           (Instances_Instances instances).
Proof.
  split; [reflexivity|].
  eexists. split; [reflexivity|]. split; [reflexivity|].
  apply (@SearchInstances_languages_are_undefined Fixture.tags Fixture.names
           Fixture.rendering (Fixture.package Fixture.rendering)
           Fixture.queries Fixture.portRequest Fixture.everything []).
  reflexivity.
Defined.

(** X12: [toQuery] applies the search request first and then the queries
    in the order of the slice: without queries it is the request alone, and
    a query appended to the slice is applied after all the others. *)
Theorem toQuery_applies_request_then_queries_in_order
    {S : Squirrel} {Q : @QueryPkg S}
    (request : SearchRequest) (queries : list SearchQuery) (last : SearchQuery)
    (builder : sq_SelectBuilder) :
  InstanceSearchQueries_toQuery
    {| ISQ_SearchRequest := request; ISQ_Queries := [] |} builder
  = SearchRequest_toQuery request builder /\
  InstanceSearchQueries_toQuery
    {| ISQ_SearchRequest := request; ISQ_Queries := queries ++ [last] |} builder
  = SearchQuery_toQuery last
      (InstanceSearchQueries_toQuery
         {| ISQ_SearchRequest := request; ISQ_Queries := queries |} builder).
Proof.
  split; [reflexivity|].
  unfold InstanceSearchQueries_toQuery. simpl.
  now rewrite fold_left_app.
Qed.

Lemma slice_set_middle {A : Type} (before after : list A) (old x : A) :
  slice_set (before ++ old :: after) (length before) x
  = Some (before ++ x :: after).
Proof.
  induction before as [|head before IH]; simpl; [reflexivity|].
  now rewrite IH.
Qed.

Lemma fillIDs_fills (ids : list string) :
  forall filled : list (option Value),
  fillIDs ids (length filled) (filled ++ make_interfaces (length ids))
  = Some (filled ++ map (fun id => Some (VString id)) ids).
Proof.
  unfold make_interfaces.
  induction ids as [|id ids IH]; intros filled; simpl.
  - reflexivity.
  - rewrite slice_set_middle.
    specialize (IH (filled ++ [Some (VString id)])).
    rewrite length_app, <- !app_assoc in IH. simpl in IH.
    replace (length filled + 1) with (Datatypes.S (length filled)) in IH
      by now rewrite PeanoNat.Nat.add_1_r.
    exact IH.
Qed.

(** X13: [NewInstanceIDsListSearchQuery] never panics and hands to
    [NewListQuery], for the id column and the comparison [ListIn], the ids
    it was given as string values: all of them, in their order, duplicates
    kept, no slot left nil; for no id, the empty list.  Its result is what
    [NewListQuery] returns. *)
Theorem NewInstanceIDsListSearchQuery_passes_the_ids
    {P : Projection} {S : Squirrel} {Q : @QueryPkg S} {LQ : @ListQueries S Q}
    (ids : list string) :
  NewInstanceIDsListSearchQuery ids
  = Some (NewListQuery InstanceColumnID
            (map (fun id => Some (VString id)) ids) ListIn).
Proof.
  unfold NewInstanceIDsListSearchQuery.
  change (fillIDs ids 0 (make_interfaces (length ids)))
    with (fillIDs ids (length (@nil (option Value)))
            ([] ++ make_interfaces (length ids))).
  now rewrite fillIDs_fills.
Qed.

(* ===================================================================== *)
(** ** Further properties: Internal errors of the single-row operations *)
(* ===================================================================== *)

Lemma scanInstance_Internal_iff {L : Language} (host : string) (row : sql_Row) :
  failsWith Internal (scanInstance host row) <->
  exists e, row = Err e /\ errs_Is_ErrNoRows e = false.
Proof.
  destruct row as [c|e]; simpl.
  - split.
    + intros [Hn _]. discriminate Hn.
    + intros (e & He & _). discriminate He.
  - destruct (errs_Is_ErrNoRows e) eqn:E; split.
    + intros [_ (e' & He & Hk)]. simpl in He. injection He as <-. discriminate Hk.
    + intros (e' & [= <-] & He). congruence.
    + intros _. now exists e.
    + intros _. apply failsWith_Throw.
Qed.

(** X14: [Instance] and [InstanceByHost] return an error of kind Internal
    exactly when their statement did not serialize, or it did and the row
    read from the store failed with an error that is not [sql.ErrNoRows]
    (a cancelled context, a lost connection, a column that does not
    decode). *)
Theorem single_row_Internal_iff
    {L : Language} {P : Projection} {S : Squirrel} {Q : @QueryPkg S}
    (q : Queries) (ctx : context_Context) (host : string) (j : Journal) :
  (failsWith Internal (fst (Queries_Instance q ctx j)) <->
   (exists cause, sq_ToSql (Instance_statement ctx) = Err cause) \/
   (exists query args e,
      sq_ToSql (Instance_statement ctx) = Ok (query, args) /\
      db_QueryRow (client q) ctx query args = Err e /\
      errs_Is_ErrNoRows e = false)) /\
  (failsWith Internal (fst (InstanceByHost q ctx host j)) <->
   (exists cause, sq_ToSql (InstanceByHost_statement host) = Err cause) \/
   (exists query args e,
      sq_ToSql (InstanceByHost_statement host) = Ok (query, args) /\
      db_QueryRow (client q) ctx query args = Err e /\
      errs_Is_ErrNoRows e = false)).
Proof.
  split.
  - rewrite Queries_Instance_run.
    destruct (sq_ToSql (Instance_statement ctx)) as [[query args]|cause]; simpl.
    + rewrite scanInstance_Internal_iff. split.
      * intros (e & He & Hn). right. now exists query, args, e.
      * intros [(cause & Ec)|(query' & args' & e & [= <- <-] & He & Hn)];
          [discriminate Ec|now exists e].
    + split.
      * intros _. left. now exists cause.
      * intros _. apply failsWith_Throw.
  - rewrite InstanceByHost_run.
    destruct (sq_ToSql (InstanceByHost_statement host)) as [[query args]|cause];
      simpl.
    + change (scanInstanceDomain host) with (scanInstance host).
      rewrite scanInstance_Internal_iff. split.
      * intros (e & He & Hn). right. now exists query, args, e.
      * intros [(cause & Ec)|(query' & args' & e & [= <- <-] & He & Hn)];
          [discriminate Ec|now exists e].
    + split.
      * intros _. left. now exists cause.
      * intros _. apply failsWith_Throw.
Qed.

Lemma single_row_Internal_iff_witness :
  failsWith Internal
    (fst (@Queries_Instance Fixture.tags Fixture.names Fixture.rendering
            (Fixture.package Fixture.rendering)
            Scenario.brokenQueries Fixture.portRequest [])) /\
  failsWith Internal
    (fst (@InstanceByHost Fixture.tags Fixture.names Fixture.failing
            (Fixture.package Fixture.failing)
            Fixture.queries Fixture.portRequest "tenant.example.com:8443" [])).
Proof.
  split.
  - apply (proj1 (@single_row_Internal_iff Fixture.tags Fixture.names
                    Fixture.rendering (Fixture.package Fixture.rendering)
                    Scenario.brokenQueries Fixture.portRequest "" [])).
    right. eexists. eexists. exists (errors_New "driver: bad connection").
    split; [reflexivity|]. split; reflexivity.
  - apply (proj2 (@single_row_Internal_iff Fixture.tags Fixture.names
                    Fixture.failing (Fixture.package Fixture.failing)
                    Fixture.queries Fixture.portRequest
                    "tenant.example.com:8443" [])).
    left. eexists. reflexivity.
Defined.
